(** * Review statistics in business hours

    A shallow embedding of [scripts/pr_stats.py] and
    [scripts/gitlab_mr_stats.py]: the business-hours calculator, the
    review-event classifier of the GitLab script, the first-item selection of
    the GitHub script, the per-request fetchers with their exception handlers
    and the aggregation loop of [main]. *)

From Stdlib Require Import ZArith QArith List Bool String Ascii Lia.
From Stdlib Require Import Sorting.Permutation Sorting.Sorted.
From Stdlib Require Import Floats.PrimFloat Numbers.Cyclic.Int63.Uint63.
From Equations Require Import Equations.
Import ListNotations.

Local Open Scope Z_scope.

(* ------------------------------------------------------------------------- *)
(** ** Exceptions and results *)
(* ------------------------------------------------------------------------- *)

Module Py.

(** The exception classes the scripts meet.  [HTTPError] is what
    [raise_for_status] raises; [ConnectionError] stands for every other
    transport failure of [requests.get] (all subclasses of
    [requests.exceptions.RequestException]).  The remaining ones are plain
    Python exceptions, outside the [RequestException] family. *)
Inductive exn : Type :=
| HTTPError
| ConnectionError
| ValueError
| KeyError
| AttributeError
| IndexError
| OverflowError.

(** [isinstance(e, requests.exceptions.HTTPError)] *)
Definition is_HTTPError (e : exn) : bool :=
  match e with HTTPError => true | _ => false end.

(** [isinstance(e, requests.exceptions.RequestException)]: [HTTPError] is a
    subclass of [RequestException]. *)
Definition is_RequestException (e : exn) : bool :=
  match e with HTTPError | ConnectionError => true | _ => false end.

(** The outcome of running a piece of Python: a value, or a raised
    exception. *)
Inductive result (A : Type) : Type :=
| Ok (a : A)
| Raise (e : exn).

Arguments Ok {A} a.
Arguments Raise {A} e.

Definition bind {A B : Type} (r : result A) (k : A -> result B) : result B :=
  match r with
  | Ok a => k a
  | Raise e => Raise e
  end.

End Py.

Import Py.

Declare Scope py_scope.
Delimit Scope py_scope with py.
Notation "x <- r ;; k" := (bind r (fun x => k))
  (at level 61, r at next level, right associativity) : py_scope.
Local Open Scope py_scope.

(* ------------------------------------------------------------------------- *)
(** ** Numbers *)
(* ------------------------------------------------------------------------- *)

(** The scripts compute with Python numbers: integer literals and counts, and
    the floats that true division produces.  The operations they use are
    collected in a class, so that every function is written once and can be
    run in exact rational arithmetic ([Q]) and in IEEE binary64
    ([PrimFloat.float], Python's [float]). *)
Class PyNumber (num : Type) : Type := {
  num_of_int : Z -> num;              (* an [int] used as a number *)
  num_add : num -> num -> num;        (* [a + b] *)
  num_div : num -> num -> num;        (* [a / b], true division *)
  num_eqb : num -> num -> bool        (* [a == b] *)
}.

#[export] Instance Q_number : PyNumber Q := {
  num_of_int := inject_Z;
  num_add := Qplus;
  num_div := Qdiv;
  num_eqb := Qeq_bool
}.

(** An integer as a binary64 float.  The conversion is exact below [2^53],
    which covers every integer the scripts convert on the inputs evaluated in
    this file. *)
Definition float_of_Z (z : Z) : float :=
  if z <? 0
  then PrimFloat.opp (PrimFloat.of_uint63 (Uint63.of_Z (- z)))
  else PrimFloat.of_uint63 (Uint63.of_Z z).

#[export] Instance binary64_number : PyNumber float := {
  num_of_int := float_of_Z;
  num_add := PrimFloat.add;
  num_div := PrimFloat.div;
  num_eqb := PrimFloat.eqb
}.

(* ------------------------------------------------------------------------- *)
(** ** Naive datetimes *)
(* ------------------------------------------------------------------------- *)

Module Datetime.

(** A naive [datetime.datetime].  The calendar date is kept as its proleptic
    Gregorian ordinal ([date.toordinal()], day 1 is 0001-01-01): date
    comparison, [weekday()] and the addition of a [timedelta] are all defined
    by Python through that ordinal. *)
Record datetime : Type := {
  ordinal : Z;
  hour : Z;
  minute : Z;
  second : Z;
  microsecond : Z
}.

Definition MAXORDINAL : Z := 3652059.   (* date(9999, 12, 31).toordinal() *)

(** The values a [datetime] object can hold. *)
Definition valid (d : datetime) : Prop :=
  1 <= ordinal d <= MAXORDINAL /\
  0 <= hour d < 24 /\
  0 <= minute d < 60 /\
  0 <= second d < 60 /\
  0 <= microsecond d < 1000000.

Definition validb (d : datetime) : bool :=
  (1 <=? ordinal d) && (ordinal d <=? MAXORDINAL) &&
  (0 <=? hour d) && (hour d <? 24) &&
  (0 <=? minute d) && (minute d <? 60) &&
  (0 <=? second d) && (second d <? 60) &&
  (0 <=? microsecond d) && (microsecond d <? 1000000).

(** *** Building dates: [datetime._ymd2ord] *)

Definition is_leap (year : Z) : bool :=
  (year mod 4 =? 0) && (negb (year mod 100 =? 0) || (year mod 400 =? 0)).

Definition days_before_year (year : Z) : Z :=
  let y := year - 1 in
  y * 365 + y / 4 - y / 100 + y / 400.

Definition DAYS_BEFORE_MONTH : list Z :=
  [0; 31; 59; 90; 120; 151; 181; 212; 243; 273; 304; 334].

Definition days_before_month (year month : Z) : Z :=
  nth (Z.to_nat (month - 1)) DAYS_BEFORE_MONTH 0
  + (if (2 <? month) && is_leap year then 1 else 0).

Definition ymd2ord (year month day : Z) : Z :=
  days_before_year year + days_before_month year month + day.

(** [datetime(year, month, day, hour, minute, second, microsecond)] *)
Definition mk (year month day h m s us : Z) : datetime :=
  {| ordinal := ymd2ord year month day;
     hour := h; minute := m; second := s; microsecond := us |}.

(** *** Comparison: the fields compared as a tuple, most significant first *)

Definition compare (a b : datetime) : comparison :=
  match ordinal a ?= ordinal b with
  | Eq =>
    match hour a ?= hour b with
    | Eq =>
      match minute a ?= minute b with
      | Eq =>
        match second a ?= second b with
        | Eq => microsecond a ?= microsecond b
        | c => c
        end
      | c => c
      end
    | c => c
    end
  | c => c
  end.

(** [a < b], [a >= b] *)
Definition ltb (a b : datetime) : bool :=
  match compare a b with Lt => true | _ => false end.

Definition geb (a b : datetime) : bool :=
  match compare a b with Lt => false | _ => true end.

(** [a.date() < b.date()], [a.date() == b.date()] *)
Definition date_ltb (a b : datetime) : bool := ordinal a <? ordinal b.
Definition date_eqb (a b : datetime) : bool := ordinal a =? ordinal b.

(** [d.weekday()]: Monday is 0, Sunday is 6. *)
Definition weekday (d : datetime) : Z := (ordinal d + 6) mod 7.

(** [d.replace(hour=h, minute=m, second=s, microsecond=us)] *)
Definition replace_time (d : datetime) (h m s us : Z) : datetime :=
  {| ordinal := ordinal d;
     hour := h; minute := m; second := s; microsecond := us |}.

(** [d + timedelta(days=n)]: the time of day is kept, and a date outside
    [0001-01-01 .. 9999-12-31] raises [OverflowError]. *)
Definition add_days (d : datetime) (n : Z) : result datetime :=
  let days := ordinal d + n in
  if (0 <? days) && (days <=? MAXORDINAL)
  then Ok {| ordinal := days;
             hour := hour d; minute := minute d;
             second := second d; microsecond := microsecond d |}
  else Raise OverflowError.

(** Midnight of the day with ordinal [o]. *)
Definition midnight (o : Z) : datetime :=
  {| ordinal := o; hour := 0; minute := 0; second := 0; microsecond := 0 |}.

(** Saturday or Sunday. *)
Definition is_weekend (o : Z) : bool := 5 <=? (o + 6) mod 7.

(** A [timedelta], as its total number of microseconds. *)
Definition timedelta : Type := Z.

(** [a - b] *)
Definition sub (a b : datetime) : timedelta :=
  let secs1 := second a + minute a * 60 + hour a * 3600 in
  let secs2 := second b + minute b * 60 + hour b * 3600 in
  ((ordinal a - ordinal b) * 86400 + (secs1 - secs2)) * 1000000
  + (microsecond a - microsecond b).

(** [td.total_seconds()] *)
Definition total_seconds {num : Type} `{PyNumber num} (td : timedelta) : num :=
  num_div (num_of_int td) (num_of_int 1000000).

End Datetime.

Import Datetime.

(* ------------------------------------------------------------------------- *)
(** ** [calculate_business_hours] *)
(* ------------------------------------------------------------------------- *)

Section BusinessHours.

Context {num : Type} `{PyNumber num}.

(** The state of the day-by-day walk: the carried instant [current] and the
    running [total_hours]. *)
Definition walk_state : Type := (datetime * num)%type.

(** The [if current.weekday() < 5] block of the loop body. *)
Definition add_day_hours (current : datetime) (total_hours : num) : num :=
  if weekday current <? 5
  then
    let end_of_day := replace_time current 23 59 59 999999 in
    let hours_in_day :=
      num_div (total_seconds (sub end_of_day current)) (num_of_int 3600) in
    num_add total_hours hours_in_day
  else total_hours.

(** [(current + timedelta(days=1)).replace(hour=0, minute=0, second=0,
    microsecond=0)] *)
Definition next_midnight (current : datetime) : result datetime :=
  d <- add_days current 1 ;; Ok (replace_time d 0 0 0 0).

(** One iteration of the loop body. *)
Definition walk_body (st : walk_state) : result walk_state :=
  let '(current, total_hours) := st in
  let total_hours := add_day_hours current total_hours in
  current <- next_midnight current ;;
  Ok (current, total_hours).

(** A value together with the equation that names it, so that the branches
    of [walk] remember which test they are under. *)
Definition inspect {A : Type} (a : A) : {b : A | a = b} := exist _ a eq_refl.

(** [while current.date() < end_time.date(): ...].  The recursion is justified
    by the number of calendar days left before [end_time]'s date. *)
Equations? walk (end_time : datetime) (st : walk_state) : result walk_state
  by wf (Z.to_nat (ordinal end_time - ordinal (fst st))) lt :=
  walk end_time st with inspect (date_ltb (fst st) end_time) => {
    | exist _ false _ := Ok st;
    | exist _ true Hcond with inspect (walk_body st) => {
        | exist _ (Ok st') Hbody := walk end_time st';
        | exist _ (Raise e) _ := Raise e } }.
Proof.
  destruct st as [current total_hours]; destruct st' as [current' total'].
  unfold walk_body, next_midnight, add_days, date_ltb in *; simpl in *.
  destruct ((0 <? ordinal current + 1) && (ordinal current + 1 <=? MAXORDINAL));
    simpl in Hbody; [|discriminate].
  injection Hbody as <- _; simpl.
  apply Z.ltb_lt in Hcond. lia.
Qed.

(** The block after the loop. *)
Definition add_final_hours (end_time : datetime) (st : walk_state) : num :=
  let '(current, total_hours) := st in
  if date_eqb current end_time && (weekday current <? 5)
  then
    let hours_final_day :=
      num_div (total_seconds (sub end_time current)) (num_of_int 3600) in
    num_add total_hours hours_final_day
  else total_hours.

(** [calculate_business_hours(start_time, end_time)], as defined (with the
    same body) in both scripts. *)
Definition calculate_business_hours (start_time end_time : datetime)
  : result num :=
  if geb start_time end_time then Ok (num_of_int 0)
  else
    st <- walk end_time (start_time, num_of_int 0) ;;
    Ok (add_final_hours end_time st).

End BusinessHours.

(* ------------------------------------------------------------------------- *)
(** ** Strings *)
(* ------------------------------------------------------------------------- *)

Module Str.

Local Open Scope string_scope.

(** [c.lower()] on one character of the ASCII range: the letters [A]..[Z]
    (codes 65..90) move to [a]..[z], every other character stays. *)
Definition lower_ascii (c : ascii) : ascii :=
  let n := nat_of_ascii c in
  if (Nat.leb 65 n && Nat.leb n 90)%bool then ascii_of_nat (n + 32) else c.

(** [s.lower()] *)
Fixpoint lower (s : string) : string :=
  match s with
  | EmptyString => EmptyString
  | String c s' => String (lower_ascii c) (lower s')
  end.

(** [s.startswith(p)] *)
Fixpoint startswith (p s : string) : bool :=
  match p, s with
  | EmptyString, _ => true
  | String _ _, EmptyString => false
  | String a p', String b s' => Ascii.eqb a b && startswith p' s'
  end.

(** [p in s]: [p] occurs in [s] as a substring. *)
Fixpoint str_in (p s : string) : bool :=
  startswith p s ||
  match s with
  | EmptyString => false
  | String _ s' => str_in p s'
  end.

(** [s[:n]] *)
Fixpoint take (n : nat) (s : string) : string :=
  match n, s with
  | O, _ => EmptyString
  | S _, EmptyString => EmptyString
  | S n', String c s' => String c (take n' s')
  end.

(** [p] occurs in [s], as a proposition. *)
Definition occurs (p s : string) : Prop :=
  exists pre post : string, s = pre ++ p ++ post.

(** [p] occurs in [s] when the case of letters is ignored in [s]: some
    substring of [s] lowers to [p]. *)
Definition occurs_ignoring_case (p s : string) : Prop :=
  exists pre mid post : string, s = pre ++ mid ++ post /\ lower mid = p.

End Str.

Import Str.

(* ------------------------------------------------------------------------- *)
(** ** Activity events and their ordering *)
(* ------------------------------------------------------------------------- *)

Inductive activity_type : Type := comment | system_note | approval_event.

(** An entry of [review_activities]: the dict with keys ['type'], ['time']
    and ['body']. *)
Record activity : Type := {
  act_type : activity_type;
  act_time : datetime;
  act_body : string
}.

(** [review_activities.sort(key=lambda x: x['time'])].  Python's sort is
    stable and compares keys with [<] only; the stable sorted arrangement of
    a list is unique, and it is computed here by insertion from the right. *)
Fixpoint insert_by_time (a : activity) (l : list activity) : list activity :=
  match l with
  | [] => [a]
  | b :: l' =>
    if Datetime.ltb (act_time b) (act_time a)
    then b :: insert_by_time a l'
    else a :: b :: l'
  end.

Fixpoint sort_by_time (l : list activity) : list activity :=
  match l with
  | [] => []
  | a :: l' => insert_by_time a (sort_by_time l')
  end.

(** The block
    [if review_activities: review_activities.sort(...);
     earliest_review_time = review_activities[0]['time']]:
    the selected instant, [None] when there is no candidate. *)
Definition earliest_review_time (review_activities : list activity)
  : option datetime :=
  match review_activities with
  | [] => None
  | _ :: _ =>
    match sort_by_time review_activities with
    | first :: _ => Some (act_time first)
    | [] => None
    end
  end.

(* ------------------------------------------------------------------------- *)
(** ** The GitLab script *)
(* ------------------------------------------------------------------------- *)

Module GitLab.

Local Open Scope string_scope.

(** One element of the notes payload, as the script reads it.
    [note_created_at] is the outcome of
    [parse_gitlab_datetime(note['created_at'])]; [note_body] and
    [note_system] are [None] when the key is absent, which [note.get] turns
    into [''] and [False]. *)
Record note : Type := {
  note_created_at : result datetime;
  note_body : option string;
  note_system : option bool
}.

(** [note.get('body', '')] *)
Definition raw_body (n : note) : string :=
  match note_body n with Some b => b | None => "" end.

(** [note.get('body', '').lower()] *)
Definition lowered_body (n : note) : string := lower (raw_body n).

(** [note.get('system', False)] *)
Definition is_system (n : note) : bool :=
  match note_system n with Some b => b | None => false end.

Definition is_review_activity (n : note) : bool :=
  let note_body := lowered_body n in
  negb (is_system n) ||
  str_in "approved this merge request" note_body ||
  str_in "unapproved this merge request" note_body ||
  str_in "requested changes" note_body ||
  str_in "rejected" note_body ||
  str_in "merged" note_body ||
  str_in "closed" note_body.

Definition is_review_request (n : note) : bool :=
  let note_body := lowered_body n in
  str_in "requested review" note_body ||
  str_in "removed review request" note_body.

(** The test of [if is_review_activity and not is_review_request]. *)
Definition is_candidate (n : note) : bool :=
  is_review_activity n && negb (is_review_request n).

(** [note_body[:50] + '...' if len(note_body) > 50 else note_body] *)
Definition shown_body (note_body : string) : string :=
  if Nat.ltb 50 (String.length note_body)
  then take 50 note_body ++ "..."
  else note_body.

(** The entry appended for a note that passes the test. *)
Definition note_activity (n : note) (note_time : datetime) : activity :=
  {| act_type := if is_system n then system_note else comment;
     act_time := note_time;
     act_body := shown_body (lowered_body n) |}.

(** The body of [for note in notes]: the timestamp is parsed first, then the
    note is appended to [review_activities] or skipped. *)
Definition classify_note (n : note) (review_activities : list activity)
  : result (list activity) :=
  note_time <- note_created_at n ;;
  Ok (if is_candidate n
      then (review_activities ++ [note_activity n note_time])%list
      else review_activities).

(** [for note in notes: ...] *)
Fixpoint classify_notes (notes : list note) (review_activities : list activity)
  : result (list activity) :=
  match notes with
  | [] => Ok review_activities
  | n :: rest =>
    review_activities <- classify_note n review_activities ;;
    classify_notes rest review_activities
  end.

(** The request detail, with the two keys read through [mr_data.get]. *)
Record mr_data : Type := {
  merge_status : option string;
  detailed_merge_status : option string
}.

Definition get_eqb (field : option string) (expected : string) : bool :=
  match field with Some s => String.eqb s expected | None => false end.

Definition approvals_probed (d : mr_data) : bool :=
  get_eqb (merge_status d) "can_be_merged" ||
  get_eqb (detailed_merge_status d) "mergeable".

(** One element of [approved_by].  [approval_created_at] is [None] when
    [approval.get('created_at')] is falsy, otherwise the outcome of parsing
    it; [approval_name] is [approval.get('user', {}).get('name', 'unknown')]. *)
Record approval : Type := {
  approval_created_at : option (result datetime);
  approval_name : string
}.

(** The reply of the approvals endpoint: its status code and the outcome of
    [response.json().get('approved_by', [])]. *)
Record approvals_reply : Type := {
  status_code : Z;
  approved_by : result (list approval)
}.

(** [for approval in approved_by: ...].  The list [review_activities] is
    appended to in place, so the entries added before an exception stay; the
    result pairs the list as the loop leaves it with the exception, if any. *)
Fixpoint append_approvals (approvals : list approval)
  (review_activities : list activity) : list activity * option exn :=
  match approvals with
  | [] => (review_activities, None)
  | a :: rest =>
    match approval_created_at a with
    | None => append_approvals rest review_activities
    | Some (Raise e) => (review_activities, Some e)
    | Some (Ok approval_time) =>
      append_approvals rest
        (review_activities ++
           [{| act_type := approval_event;
               act_time := approval_time;
               act_body := "approved by " ++ approval_name a |}])%list
    end
  end.

(** The inner [try: ... except: pass] around the approvals probe: whatever
    is raised inside is dropped, and [review_activities] is kept as it is
    at that moment. *)
Definition probe_approvals (approvals_response : result approvals_reply)
  (review_activities : list activity) : list activity :=
  match approvals_response with
  | Raise _ => review_activities
  | Ok response =>
    if (status_code response =? 200)%Z
    then
      match approved_by response with
      | Raise _ => review_activities
      | Ok approvals => fst (append_approvals approvals review_activities)
      end
    else review_activities
  end.

(** What the three endpoints answer for one merge request: each field is the
    outcome of [requests.get] followed, for the first two, by
    [raise_for_status()] and [json()]. *)
Record mr_replies : Type := {
  notes_response : result (list note);
  mr_response : result mr_data;
  approvals_response : result approvals_reply
}.

Section Fetchers.

Context {num : Type} `{PyNumber num}.

(** The candidate list as it stands when the selection is made. *)
Definition review_candidates (replies : mr_replies) : result (list activity) :=
  notes <- notes_response replies ;;
  review_activities <- classify_notes notes [] ;;
  mr_data <- mr_response replies ;;
  Ok (if approvals_probed mr_data
      then probe_approvals (approvals_response replies) review_activities
      else review_activities).

(** The body of the [try] block of [get_first_review_time]: [Some hours]
    when it returns from inside the block, [None] when it falls through. *)
Definition first_review_time_body (replies : mr_replies)
  (mr_created_at : datetime) : result (option num) :=
  review_activities <- review_candidates replies ;;
  match earliest_review_time review_activities with
  | Some earliest =>
    business_hours <- calculate_business_hours mr_created_at earliest ;;
    Ok (Some business_hours)
  | None => Ok None
  end.

(** [get_first_review_time]: the three handlers ([HTTPError],
    [RequestException], [Exception]) each print a line and fall through to
    [return None]. *)
Definition get_first_review_time (replies : mr_replies)
  (mr_created_at : datetime) : result (option num) :=
  match first_review_time_body replies mr_created_at with
  | Ok r => Ok r
  | Raise e =>
    if is_HTTPError e then Ok None
    else if is_RequestException e then Ok None
    else Ok None
  end.

(** [get_review_comment_count]: a request of its own to the notes endpoint.
    Only [HTTPError] and [RequestException] are handled (falling through to
    [return 0]); anything else leaves the function. *)
Definition get_review_comment_count (notes_response : result (list note))
  : result Z :=
  match
    (notes <- notes_response ;;
     Ok (Z.of_nat (List.length (filter (fun n => negb (is_system n)) notes))))
  with
  | Ok comment_count => Ok comment_count
  | Raise e =>
    if is_HTTPError e then Ok 0%Z
    else if is_RequestException e then Ok 0%Z
    else Raise e
  end.

End Fetchers.

End GitLab.

(* ------------------------------------------------------------------------- *)
(** ** The GitHub script *)
(* ------------------------------------------------------------------------- *)

Module GitHub.

(** One element of the review-comments payload; [comment_created_at] is the
    outcome of [datetime.strptime(c['created_at'], '%Y-%m-%dT%H:%M:%SZ')]. *)
Record review_comment : Type := {
  comment_created_at : result datetime
}.

(** One element of the reviews payload; [review_submitted_at] is the outcome
    of [datetime.strptime(r['submitted_at'], '%Y-%m-%dT%H:%M:%SZ')]. *)
Record review : Type := {
  review_submitted_at : result datetime
}.

(** What the two endpoints answer for one pull request. *)
Record pr_replies : Type := {
  comments_response : result (list review_comment);
  reviews_response : result (list review)
}.

(** [if comments: earliest_review_time = strptime(comments[0]['created_at'])]:
    only the first element is read. *)
Definition first_comment_time (comments : list review_comment)
  : result (option datetime) :=
  match comments with
  | [] => Ok None
  | first :: _ =>
    first_comment_time <- comment_created_at first ;;
    Ok (Some first_comment_time)
  end.

(** [if reviews: ...]: the first review replaces the instant held so far
    when there is none or when it is strictly earlier. *)
Definition with_first_review (earliest_review_time : option datetime)
  (reviews : list review) : result (option datetime) :=
  match reviews with
  | [] => Ok earliest_review_time
  | first :: _ =>
    first_review_time <- review_submitted_at first ;;
    Ok (match earliest_review_time with
        | None => Some first_review_time
        | Some earliest =>
          if Datetime.ltb first_review_time earliest
          then Some first_review_time
          else Some earliest
        end)
  end.

(** The value of [earliest_review_time] once both requests are done, in the
    order of the [try] block. *)
Definition selected_instant (replies : pr_replies) : result (option datetime) :=
  comments <- comments_response replies ;;
  earliest_review_time <- first_comment_time comments ;;
  reviews <- reviews_response replies ;;
  with_first_review earliest_review_time reviews.

Section Fetchers.

Context {num : Type} `{PyNumber num}.

(** The [try] block of [get_first_review_time]: [Some hours] when it returns
    from inside the block, [None] when it falls through. *)
Definition first_review_time_body (replies : pr_replies)
  (pr_created_at : datetime) : result (option num) :=
  earliest_review_time <- selected_instant replies ;;
  match earliest_review_time with
  | Some earliest =>
    business_hours <- calculate_business_hours pr_created_at earliest ;;
    Ok (Some business_hours)
  | None => Ok None
  end.

(** [get_first_review_time]: every handler prints and falls through to
    [return None]. *)
Definition get_first_review_time (replies : pr_replies)
  (pr_created_at : datetime) : result (option num) :=
  match first_review_time_body replies pr_created_at with
  | Ok r => Ok r
  | Raise e =>
    if is_HTTPError e then Ok None
    else if is_RequestException e then Ok None
    else Ok None
  end.

(** [get_review_comment_count]: [len(response.json())], with the two
    handlers falling through to [return 0]. *)
Definition get_review_comment_count
  (comments_response : result (list review_comment)) : result Z :=
  match (comments <- comments_response ;; Ok (Z.of_nat (List.length comments)))
  with
  | Ok comment_count => Ok comment_count
  | Raise e =>
    if is_HTTPError e then Ok 0%Z
    else if is_RequestException e then Ok 0%Z
    else Raise e
  end.

End Fetchers.

End GitHub.

(* ------------------------------------------------------------------------- *)
(** ** The aggregation in [main] *)
(* ------------------------------------------------------------------------- *)

(** An element of [merge_requests] / [pull_requests]. *)
Record request : Type := {
  number : Z;
  created_at : datetime
}.

Section Aggregation.

Context {num : Type} `{PyNumber num}.

(** [l[i]] *)
Definition getitem {A : Type} (l : list A) (i : nat) : result A :=
  match nth_error l i with
  | Some a => Ok a
  | None => Raise IndexError
  end.

(** The three lists the loop of [main] fills. *)
Record activity_lists : Type := {
  with_activity : list request;
  activity_comment_counts : list Z;
  activity_review_times : list (option num)
}.

Definition no_activity : activity_lists :=
  {| with_activity := [];
     activity_comment_counts := [];
     activity_review_times := [] |}.

Definition is_not_None {A : Type} (o : option A) : bool :=
  match o with Some _ => true | None => false end.

(** The body of the loop of [main] once [comment_counts[i]] and
    [review_times[i]] have been read. *)
Definition record_activity (acc : activity_lists) (mr : request) (count : Z)
  (review_time : option num) : activity_lists :=
  let has_comments := count >? 0 in
  let has_reviews := is_not_None review_time in
  if has_comments || has_reviews
  then {| with_activity := with_activity acc ++ [mr];
          activity_comment_counts := activity_comment_counts acc ++ [count];
          activity_review_times := activity_review_times acc ++ [review_time] |}
  else acc.

(** [for i, mr in enumerate(merge_requests): ...], from index [i] on. *)
Fixpoint activity_loop (i : nat) (requests : list request)
  (comment_counts : list Z) (review_times : list (option num))
  (acc : activity_lists) : result activity_lists :=
  match requests with
  | [] => Ok acc
  | mr :: rest =>
    count <- getitem comment_counts i ;;
    review_time <- getitem review_times i ;;
    activity_loop (S i) rest comment_counts review_times
      (record_activity acc mr count review_time)
  end.

Definition activity_subset (requests : list request)
  (comment_counts : list Z) (review_times : list (option num))
  : result activity_lists :=
  activity_loop 0 requests comment_counts review_times no_activity.

(** [sum(l)] on integers and on numbers: the running sum starts at the
    integer [0] and takes the elements from the left. *)
Definition sum_int (l : list Z) : Z := fold_left Z.add l 0.
Definition sum_num (l : list num) : num := fold_left num_add l (num_of_int 0).

(** [len(l)] as a number *)
Definition len {A : Type} (l : list A) : Z := Z.of_nat (List.length l).

(** [[rt for rt in activity_review_times if rt is not None]] *)
Fixpoint valid_review_times (l : list (option num)) : list num :=
  match l with
  | [] => []
  | Some rt :: l' => rt :: valid_review_times l'
  | None :: l' => valid_review_times l'
  end.

(** [sum(activity_comment_counts) / len(activity_comment_counts)] *)
Definition mean_comments (counts : list Z) : num :=
  num_div (num_of_int (sum_int counts)) (num_of_int (len counts)).

(** [sum(valid_activity_review_times) / len(valid_activity_review_times)] *)
Definition mean_review_time (times : list num) : num :=
  num_div (sum_num times) (num_of_int (len times)).

(** What the final [print] shows: the number of requests with activity; the
    mean, maximum and minimum comment count, or [None] for the line
    "No comments found"; the mean review time, or [None] for the line
    "No reviews found".  The formatting to one decimal is not modelled. *)
Record report : Type := {
  activity_total : Z;
  comment_stats : option (num * Z * Z);
  review_stats : option num
}.

Definition make_report (a : activity_lists) : report :=
  {| activity_total := len (with_activity a);
     comment_stats :=
       match activity_comment_counts a with
       | [] => None
       | c :: cs =>
         Some (mean_comments (c :: cs),
               fold_left Z.max cs c,
               fold_left Z.min cs c)
       end;
     review_stats :=
       match valid_review_times (activity_review_times a) with
       | [] => None
       | t :: ts => Some (mean_review_time (t :: ts))
       end |}.

(** [[worker.result() for worker in workers]]: the results in submission
    order; an exception that left a worker is raised again by [result()]. *)
Fixpoint results {A : Type} (workers : list (result A)) : result (list A) :=
  match workers with
  | [] => Ok []
  | w :: rest =>
    r <- w ;;
    rs <- results rest ;;
    Ok (r :: rs)
  end.

(** The part of [main] that follows the listing call and its early return.
    Both scripts have the same text here and differ in the two functions
    the workers run, so it is written once over them: [W] is what the two
    workers of one request receive from the platform, [count_worker] and
    [time_worker] are the submitted calls.  The comment workers are
    collected first, then the review-time workers. *)
Definition summarize {W : Type}
  (count_worker : W -> result Z)
  (time_worker : request -> W -> result (option num))
  (listing : list (request * W)) : result report :=
  let requests := map fst listing in
  let comment_workers := map (fun row => count_worker (snd row)) listing in
  let review_time_workers :=
    map (fun row => time_worker (fst row) (snd row)) listing in
  comment_counts <- results comment_workers ;;
  review_times <- results review_time_workers ;;
  lists <- activity_subset requests comment_counts review_times ;;
  Ok (make_report lists).

(** [main] after the listing call; [None] is the early return on an empty
    listing ("No MRs found"). *)
Definition main_after_listing {W : Type}
  (count_worker : W -> result Z)
  (time_worker : request -> W -> result (option num))
  (listing : list (request * W)) : result (option report) :=
  match listing with
  | [] => Ok None
  | _ :: _ =>
    r <- summarize count_worker time_worker listing ;;
    Ok (Some r)
  end.

(** The GitLab script: each request comes with the reply to the notes
    request of its comment worker and the replies to the requests of its
    review-time worker. *)
Definition gitlab_main
  (listing : list (request * (result (list GitLab.note) * GitLab.mr_replies)))
  : result (option report) :=
  main_after_listing
    (fun w => GitLab.get_review_comment_count (fst w))
    (fun mr w => GitLab.get_first_review_time (snd w) (created_at mr))
    listing.

(** The GitHub script. *)
Definition github_main
  (listing : list (request * (result (list GitHub.review_comment)
                              * GitHub.pr_replies)))
  : result (option report) :=
  main_after_listing
    (fun w => GitHub.get_review_comment_count (fst w))
    (fun pr w => GitHub.get_first_review_time (snd w) (created_at pr))
    listing.

End Aggregation.

(* ------------------------------------------------------------------------- *)
(** ** Instants and payloads used in the examples *)
(* ------------------------------------------------------------------------- *)

(** 2024-01-01 is a Monday; the week runs to Sunday 2024-01-07 and
    2024-01-08 is the Monday after. *)
Definition monday_0000 : datetime := mk 2024 1 1 0 0 0 0.
Definition monday_0900 : datetime := mk 2024 1 1 9 0 0 0.
Definition tuesday_0000 : datetime := mk 2024 1 2 0 0 0 0.
Definition tuesday_0900 : datetime := mk 2024 1 2 9 0 0 0.
Definition friday_1700 : datetime := mk 2024 1 5 17 0 0 0.
Definition friday_last_microsecond : datetime := mk 2024 1 5 23 59 59 999999.
Definition saturday : Z := ymd2ord 2024 1 6.
Definition next_monday_0000 : datetime := mk 2024 1 8 0 0 0 0.
Definition next_monday_0900 : datetime := mk 2024 1 8 9 0 0 0.

(** A merge request whose only note is a comment written on Tuesday 09:00. *)
Definition review_note_tuesday : GitLab.note :=
  {| GitLab.note_created_at := Ok tuesday_0900;
     GitLab.note_body := Some "Looks good to me"%string;
     GitLab.note_system := Some false |}.

Definition reviewed_on_tuesday : GitLab.mr_replies :=
  {| GitLab.notes_response := Ok [review_note_tuesday];
     GitLab.mr_response :=
       Ok {| GitLab.merge_status := Some "unchecked"%string;
             GitLab.detailed_merge_status := None |};
     GitLab.approvals_response := Raise ConnectionError |}.

(** A pull request whose only review comment was written on Tuesday 09:00. *)
Definition commented_on_tuesday : GitHub.pr_replies :=
  {| GitHub.comments_response :=
       Ok [{| GitHub.comment_created_at := Ok tuesday_0900 |}];
     GitHub.reviews_response := Ok [] |}.

(** A comment written by a person (not a system note) that mentions a
    review request. *)
Definition comment_about_review_request : GitLab.note :=
  {| GitLab.note_created_at := Ok tuesday_0900;
     GitLab.note_body := Some "I requested review from Bob yesterday"%string;
     GitLab.note_system := Some false |}.

(** A note that meets both inclusion criteria and carries a review-request
    marker in capitals. *)
Definition approval_with_review_request : GitLab.note :=
  {| GitLab.note_created_at := Ok tuesday_0900;
     GitLab.note_body :=
       Some "Approved this merge request and REQUESTED REVIEW from Eve"%string;
     GitLab.note_system := Some false |}.

(** Three events at 03:00, 01:00 and 02:00 of the same Monday. *)
Definition event_at (h : Z) : activity :=
  {| act_type := comment;
     act_time := mk 2024 1 1 h 0 0 0;
     act_body := "note"%string |}.

Definition events_3_1_2 : list activity := [event_at 3; event_at 1; event_at 2].


(** Three requests, for the comment counts [0, 5, 0] and the review times
    [None, 2.0, 3.0]. *)
Definition request_0 : request := {| number := 10; created_at := monday_0900 |}.
Definition request_1 : request := {| number := 11; created_at := monday_0900 |}.
Definition request_2 : request := {| number := 12; created_at := monday_0900 |}.

Definition three_requests : list request := [request_0; request_1; request_2].
Definition counts_0_5_0 : list Z := [0; 5; 0].

Definition times_none_2_3 {num : Type} `{PyNumber num} : list (option num) :=
  [None; Some (num_of_int 2); Some (num_of_int 3)].

(** A system note recording an approval. *)
Definition approval_system_note : GitLab.note :=
  {| GitLab.note_created_at := Ok tuesday_0900;
     GitLab.note_body := Some "approved this merge request"%string;
     GitLab.note_system := Some true |}.


(** A merge request whose notes endpoint answers with an HTTP error. *)
Definition unreachable_notes : GitLab.mr_replies :=
  {| GitLab.notes_response := Raise HTTPError;
     GitLab.mr_response :=
       Ok {| GitLab.merge_status := None;
             GitLab.detailed_merge_status := None |};
     GitLab.approvals_response := Raise ConnectionError |}.

(** ** Notions used in the statements *)

(** [m] is a member of [l] that no member of [l] precedes. *)
Definition earliest_in (m : activity) (l : list activity) : Prop :=
  In m l /\
  Forall (fun a => Datetime.ltb (act_time a) (act_time m) = false) l.

(** [a] is not later than [b]. *)
Definition time_le (a b : activity) : Prop :=
  Datetime.ltb (act_time b) (act_time a) = false.

(** The loop of [main] over requests zipped with their two statistics. *)
Definition record_all {num : Type} `{PyNumber num}
  (rows : list (request * (Z * option num))) (acc : activity_lists)
  : activity_lists :=
  fold_left (fun acc row =>
               record_activity acc (fst row) (fst (snd row)) (snd (snd row)))
            rows acc.

(* ------------------------------------------------------------------------- *)
(** ** The listing calls *)
(* ------------------------------------------------------------------------- *)

Module Listing.

(** How a run of the listing call ends: it returns, an exception leaves it,
    or [sys.exit(code)] is called. *)
Inductive outcome (A : Type) : Type :=
| Returned (a : A)
| Raised (e : exn)
| Exited (code : Z).

Arguments Returned {A} a.
Arguments Raised {A} e.
Arguments Exited {A} code.

(** One element of a listing page: the request number ([mr['iid']] or
    [item['number']]) and the outcome of parsing its ['created_at']. *)
Record item : Type := {
  item_number : Z;
  item_created_at : result datetime
}.

(** One page as the platform answers it: [page_status] is the outcome of
    [requests.get] and [raise_for_status()], [page_items] the outcome of
    reading the payload ([response.json()], then [.get('items', [])] on
    GitHub), [has_next_link] is ['next' in response.links]. *)
Record page : Type := {
  page_status : result unit;
  page_items : result (list item);
  has_next_link : bool
}.

(** [for item in data: requests.append({...})] *)
Fixpoint append_items (data : list item) (acc : list request)
  : result (list request) :=
  match data with
  | [] => Ok acc
  | it :: rest =>
    t <- item_created_at it ;;
    append_items rest (acc ++ [{| number := item_number it; created_at := t |}])
  end.

Definition per_page : Z := 100.

(** The two handlers around [requests.get] and [raise_for_status()]: both
    print and call [sys.exit(1)]; any other exception leaves the function. *)
Definition listing_failure {A : Type} (e : exn) : outcome A :=
  if is_HTTPError e then Exited 1
  else if is_RequestException e then Exited 1
  else Raised e.

(** The loop of [fetch_merge_requests_in_range], from page [page_number] on;
    [fuel] bounds the number of pages requested, and [None] means the bound
    was reached with the loop still running. *)
Fixpoint gitlab_pages (fuel : nat) (server : Z -> page) (page_number : Z)
  (merge_requests : list request) : option (outcome (list request)) :=
  match fuel with
  | O => None
  | S fuel' =>
    let response := server page_number in
    match page_status response with
    | Raise e => Some (listing_failure e)
    | Ok _ =>
      match page_items response with
      | Raise e => Some (Raised e)
      | Ok [] => Some (Returned merge_requests)
      | Ok data =>
        match append_items data merge_requests with
        | Raise e => Some (Raised e)
        | Ok merge_requests =>
          if len data <? per_page
          then Some (Returned merge_requests)
          else gitlab_pages fuel' server (page_number + 1) merge_requests
        end
      end
    end
  end.

Definition fetch_merge_requests_in_range (fuel : nat) (server : Z -> page)
  : option (outcome (list request)) :=
  gitlab_pages fuel server 1 [].

(** The loop of [fetch_pull_requests_in_range]: [while has_next: ...]. *)
Fixpoint github_pages (fuel : nat) (server : Z -> page) (page_number : Z)
  (pull_requests : list request) : option (outcome (list request)) :=
  match fuel with
  | O => None
  | S fuel' =>
    let response := server page_number in
    match page_status response with
    | Raise e => Some (listing_failure e)
    | Ok _ =>
      match page_items response with
      | Raise e => Some (Raised e)
      | Ok [] => Some (Returned pull_requests)
      | Ok items =>
        match append_items items pull_requests with
        | Raise e => Some (Raised e)
        | Ok pull_requests =>
          if has_next_link response
          then github_pages fuel' server (page_number + 1) pull_requests
          else Some (Returned pull_requests)
        end
      end
    end
  end.

Definition fetch_pull_requests_in_range (fuel : nat) (server : Z -> page)
  : option (outcome (list request)) :=
  github_pages fuel server 1 [].

(** The requests of a page whose timestamps all parse. *)
Fixpoint requests_of (data : list item) : result (list request) :=
  match data with
  | [] => Ok []
  | it :: rest =>
    t <- item_created_at it ;;
    rs <- requests_of rest ;;
    Ok ({| number := item_number it; created_at := t |} :: rs)
  end.

(** The requests of a run of pages, each read in full. *)
Fixpoint requests_of_pages (pages : list (list item)) : result (list request) :=
  match pages with
  | [] => Ok []
  | data :: rest =>
    rs <- requests_of data ;;
    rs' <- requests_of_pages rest ;;
    Ok (rs ++ rs')%list
  end.

(** [server] answers the requests for pages [first], [first + 1], ...
    without error, with the payloads of [pages] in order. *)
Fixpoint serves (server : Z -> page) (first : Z) (pages : list (list item))
  : Prop :=
  match pages with
  | [] => True
  | data :: rest =>
    page_status (server first) = Ok tt /\
    page_items (server first) = Ok data /\
    serves server (first + 1) rest
  end.

(** The [n] pages from [first] on carry a 'next' link. *)
Definition linked (server : Z -> page) (first : Z) (n : nat) : Prop :=
  forall i : Z,
    0 <= i < Z.of_nat n -> has_next_link (server (first + i)) = true.

End Listing.

Import Listing.

(* ------------------------------------------------------------------------- *)
(** ** [parse_gitlab_datetime] *)
(* ------------------------------------------------------------------------- *)

Module Parse.

Local Open Scope string_scope.








Section Parser.

(** [datetime.strptime(text, format)], a function of the standard library. *)
Variable strptime : string -> string -> result datetime.


End Parser.


End Parse.

Import Parse.

(* ------------------------------------------------------------------------- *)
(** ** The URL helpers *)
(* ------------------------------------------------------------------------- *)

Module Url.

Local Open Scope string_scope.

(** [s.lstrip(c)], [s.rstrip(c)] and [s.strip(c)] for a single character. *)
Fixpoint lstrip (c : ascii) (s : string) : string :=
  match s with
  | EmptyString => EmptyString
  | String a s' => if Ascii.eqb a c then lstrip c s' else s
  end.

Fixpoint rstrip (c : ascii) (s : string) : string :=
  match s with
  | EmptyString => EmptyString
  | String a s' =>
    match rstrip c s' with
    | EmptyString => if Ascii.eqb a c then EmptyString else String a EmptyString
    | r => String a r
    end
  end.

Definition strip (c : ascii) (s : string) : string := rstrip c (lstrip c s).

(** [s.split(sep)] for a single character: the pieces between the
    separators, empty pieces included; never the empty list. *)
Fixpoint split (sep : ascii) (s : string) : list string :=
  match s with
  | EmptyString => [EmptyString]
  | String a s' =>
    if Ascii.eqb a sep then EmptyString :: split sep s'
    else
      match split sep s' with
      | first :: rest => String a first :: rest
      | [] => [String a EmptyString]
      end
  end.

(** [extract_repo_info] of the two GitHub scripts, from the path that
    [urlparse(repo_url).path] gives. *)
Definition extract_repo_info (path : string) : outcome (string * string) :=
  let parts := split "/" (strip "/" path) in
  match parts with
  | owner :: repo :: _ => Returned (owner, repo)
  | _ => Exited 1
  end.

(** The fields of [urlparse(gitlab_url)] the GitLab script reads. *)
Record parsed_url : Type := {
  scheme : string;
  netloc : string;
  path : string
}.

(** [extract_project_info], from the parsed URL. *)
Definition extract_project_info (parsed : parsed_url)
  : outcome (string * string) :=
  match netloc parsed with
  | EmptyString => Exited 1
  | _ =>
    let base_url := scheme parsed ++ "://" ++ netloc parsed in
    let project_path := strip "/" (path parsed) in
    match project_path with
    | EmptyString => Exited 1
    | _ => Returned (base_url, project_path)
    end
  end.

(** Every character of [s] is [c]; no character of [s] is [c]. *)
Fixpoint all_char (c : ascii) (s : string) : bool :=
  match s with
  | EmptyString => true
  | String a s' => Ascii.eqb a c && all_char c s'
  end.

Fixpoint free_of (c : ascii) (s : string) : bool :=
  match s with
  | EmptyString => true
  | String a s' => negb (Ascii.eqb a c) && free_of c s'
  end.

End Url.

Import Url.

(* ------------------------------------------------------------------------- *)
(** ** The month window of [pr_comment_analyzer.py] *)
(* ------------------------------------------------------------------------- *)

Module Calendar.

Definition DI400Y : Z := 146097.   (* days in 400 years *)
Definition DI100Y : Z := 36524.    (* days in 100 years *)
Definition DI4Y : Z := 1461.       (* days in 4 years *)

(** [_DAYS_IN_MONTH[month]] *)
Definition DAYS_IN_MONTH : list Z :=
  [31; 28; 31; 30; 31; 30; 31; 31; 30; 31; 30; 31].

Definition month_length (month : Z) : Z :=
  nth (Z.to_nat (month - 1)) DAYS_IN_MONTH 0.

(** [_days_in_month(year, month)] *)
Definition days_in_month (year month : Z) : Z :=
  if (month =? 2) && is_leap year then 29 else month_length month.

(** [_ord2ymd(n)]: the year, month and day of the date with ordinal [n]. *)
Definition ord2ymd (n : Z) : Z * Z * Z :=
  let n := n - 1 in
  let n400 := n / DI400Y in
  let n := n mod DI400Y in
  let year := n400 * 400 + 1 in
  let n100 := n / DI100Y in
  let n := n mod DI100Y in
  let n4 := n / DI4Y in
  let n := n mod DI4Y in
  let n1 := n / 365 in
  let n := n mod 365 in
  let year := year + n100 * 100 + n4 * 4 + n1 in
  if (n1 =? 4) || (n100 =? 4) then (year - 1, 12, 31)
  else
    let leapyear := (n1 =? 3) && (negb (n4 =? 24) || (n100 =? 3)) in
    let month := Z.shiftr (n + 50) 5 in
    let preceding :=
      nth (Z.to_nat (month - 1)) DAYS_BEFORE_MONTH 0
      + (if (2 <? month) && leapyear then 1 else 0) in
    if preceding >? n
    then
      let month := month - 1 in
      let preceding :=
        preceding
        - (month_length month + (if (month =? 2) && leapyear then 1 else 0)) in
      (year, month, n - preceding + 1)
    else (year, month, n - preceding + 1).

(** [d.replace(day=1, hour=0, minute=0, second=0, microsecond=0)] *)
Definition first_of_month (d : datetime) : datetime :=
  let '(year, month, _) := ord2ymd (ordinal d) in
  mk year month 1 0 0 0 0.

Definition MICROSECONDS_PER_DAY : Z := 86400000000.

Definition time_of_day (d : datetime) : Z :=
  (hour d * 3600 + minute d * 60 + second d) * 1000000 + microsecond d.

(** [d + timedelta(microseconds=k)] ([d - timedelta(microseconds=j)] is
    [d + timedelta(microseconds=-j)]): the sum is normalised into days,
    seconds and microseconds, and a date out of range raises
    [OverflowError]. *)
Definition add_microseconds (d : datetime) (k : Z) : result datetime :=
  let total := time_of_day d + k in
  let days := ordinal d + total / MICROSECONDS_PER_DAY in
  let rest := total mod MICROSECONDS_PER_DAY in
  let seconds := rest / 1000000 in
  if (0 <? days) && (days <=? MAXORDINAL)
  then Ok {| ordinal := days;
             hour := seconds / 3600;
             minute := (seconds mod 3600) / 60;
             second := seconds mod 60;
             microsecond := rest mod 1000000 |}
  else Raise OverflowError.

(** [get_previous_month_dates()] of [pr_comment_analyzer.py], with the
    value of [datetime.today()] as its argument. *)
Definition get_previous_month_dates (today : datetime)
  : result (datetime * datetime) :=
  let first_day_this_month := first_of_month today in
  end_last_month <- add_microseconds first_day_this_month (-1) ;;
  let start_last_month := first_of_month end_last_month in
  Ok (start_last_month, end_last_month).

(** The month before [month] of [year]. *)
Definition previous_month (year month : Z) : Z * Z :=
  if month =? 1 then (year - 1, 12) else (year, month - 1).

(** The day before the first of [month] is the last day of the month
    before, and [ord2ymd] finds it. *)
Definition eve_of_month_ok (year month : Z) : bool :=
  let '(py, pm) := previous_month year month in
  let '(y, m, d) := ord2ymd (ymd2ord year month 1 - 1) in
  (y =? py) && (m =? pm) && (d =? days_in_month py pm)
  && (ymd2ord py pm (days_in_month py pm) =? ymd2ord year month 1 - 1)
  && (let '(y1, m1, d1) := ord2ymd (ymd2ord py pm 1) in
      (y1 =? py) && (m1 =? pm) && (d1 =? 1)).

Definition months : list Z := map Z.of_nat (seq 1 12).
Definition first_400_years : list Z := map Z.of_nat (seq 1 400).

End Calendar.

Import Calendar.

(* ------------------------------------------------------------------------- *)
(** ** [main] of [pr_comment_analyzer.py] *)
(* ------------------------------------------------------------------------- *)

Module Analyzer.

(** What [main] of [pr_comment_analyzer.py] prints: one of its two early
    messages, or the statistics. *)
Inductive analysis : Type :=
| no_pull_requests
| no_comments
| statistics (mean min_count max_count : Z).

Section Main.

Context {num : Type} `{PyNumber num}.

(** The builtin [round] on the mean. *)
Variable round : num -> Z.

(** [main] after the listing call: each pull request number comes with the
    reply its comment worker receives. *)
Definition main
  (listing : list (Z * result (list GitHub.review_comment)))
  : result analysis :=
  match listing with
  | [] => Ok no_pull_requests
  | _ :: _ =>
    comment_counts <-
      results (map (fun row => GitHub.get_review_comment_count (snd row))
                   listing) ;;
    match comment_counts with
    | [] => Ok no_comments
    | c :: cs =>
      let avg_comments := mean_comments (c :: cs) in
      Ok (statistics (round avg_comments)
            (fold_left Z.min cs c) (fold_left Z.max cs c))
    end
  end.

End Main.

End Analyzer.

(* ------------------------------------------------------------------------- *)
(** ** Further notions used in the statements *)
(* ------------------------------------------------------------------------- *)

(** The timestamps of the notes, when every one of them parses. *)
Fixpoint parsed_times (notes : list GitLab.note)
  : result (list (GitLab.note * datetime)) :=
  match notes with
  | [] => Ok []
  | n :: rest =>
    t <- GitLab.note_created_at n ;;
    ts <- parsed_times rest ;;
    Ok ((n, t) :: ts)
  end.

(** The entries of the notes that pass the test, in the order of the
    notes. *)
Definition candidate_events (rows : list (GitLab.note * datetime))
  : list activity :=
  map (fun row => GitLab.note_activity (fst row) (snd row))
      (filter (fun row => GitLab.is_candidate (fst row)) rows).

Definition is_approval_event (a : activity) : Prop :=
  act_type a = approval_event.

(** The events the loop over [approved_by] appends when nothing raises. *)
Fixpoint approval_events (approvals : list GitLab.approval) : list activity :=
  match approvals with
  | [] => []
  | a :: rest =>
    match GitLab.approval_created_at a with
    | Some (Ok approval_time) =>
      {| act_type := approval_event;
         act_time := approval_time;
         act_body := ("approved by " ++ GitLab.approval_name a)%string |}
      :: approval_events rest
    | _ => approval_events rest
    end
  end.

(** No timestamp of the list fails to parse. *)
Definition all_parse (approvals : list GitLab.approval) : Prop :=
  Forall (fun a => forall e, GitLab.approval_created_at a <> Some (Raise e))
         approvals.

(** The events whose timestamp is [t]. *)
Definition at_time (t : datetime) (l : list activity) : list activity :=
  filter (fun a => match Datetime.compare (act_time a) t with
                   | Eq => true
                   | _ => false
                   end) l.

(** The test of the loop of [main] on one row. *)
Definition is_active {num : Type} (row : request * (Z * option num)) : bool :=
  (fst (snd row) >? 0) || is_not_None (snd (snd row)).

(* ------------------------------------------------------------------------- *)
(** ** Further instants and payloads used in the examples *)
(* ------------------------------------------------------------------------- *)

Definition saturday_1000 : datetime := mk 2024 1 6 10 0 0 0.
Definition sunday_1800 : datetime := mk 2024 1 7 18 0 0 0.

(** Three approvals: the second has a timestamp that does not parse. *)
Definition approval_by_ann : GitLab.approval :=
  {| GitLab.approval_created_at := Some (Ok tuesday_0900);
     GitLab.approval_name := "Ann" |}.
Definition approval_unparseable : GitLab.approval :=
  {| GitLab.approval_created_at := Some (Raise ValueError);
     GitLab.approval_name := "Bo" |}.
Definition approval_by_cy : GitLab.approval :=
  {| GitLab.approval_created_at := Some (Ok monday_0900);
     GitLab.approval_name := "Cy" |}.

(** The activity lists of the counts [5, 0]. *)
Definition lists_5_0 : @activity_lists Q :=
  {| with_activity := [request_1; request_2];
     activity_comment_counts := [5; 0];
     activity_review_times := [Some (2 # 1); Some (3 # 1)]%Q |}.

(** Listing pages: a full page of 100 items, and servers that answer it
    once, then a short page or an error, or for ever. *)
Definition listed (n : Z) : item :=
  {| item_number := n; item_created_at := Ok monday_0900 |}.

Definition request_of_listed (n : Z) : request :=
  {| number := n; created_at := monday_0900 |}.

Definition answered (data : list item) (next : bool) : page :=
  {| page_status := Ok tt; page_items := Ok data; has_next_link := next |}.

Definition refused (e : exn) : page :=
  {| page_status := Raise e; page_items := Ok []; has_next_link := false |}.

Definition full_page : list item := repeat (listed 7) 100.

Definition full_then_short (n : Z) : page :=
  if n =? 1 then answered full_page true
  else if n =? 2 then answered [listed 8] false
  else refused ConnectionError.

Definition full_then_refused (n : Z) : page :=
  if n =? 1 then answered full_page true else refused HTTPError.

Definition always_full (n : Z) : page := answered full_page true.

(** A pull request with one review comment and a first review whose
    ['submitted_at'] does not parse. *)
Definition pending_first_review : GitHub.pr_replies :=
  {| GitHub.comments_response :=
       Ok [{| GitHub.comment_created_at := Ok tuesday_0900 |}];
     GitHub.reviews_response :=
       Ok [{| GitHub.review_submitted_at := Raise ValueError |}] |}.

(** A system note whose timestamp does not parse, after a comment. *)
Definition bad_timestamp_note : GitLab.note :=
  {| GitLab.note_created_at := Raise ValueError;
     GitLab.note_body := Some "changed the description"%string;
     GitLab.note_system := Some true |}.

Definition reviewed_then_bad_timestamp : GitLab.mr_replies :=
  {| GitLab.notes_response := Ok [review_note_tuesday; bad_timestamp_note];
     GitLab.mr_response :=
       Ok {| GitLab.merge_status := None;
             GitLab.detailed_merge_status := None |};
     GitLab.approvals_response := Raise ConnectionError |}.

(* ------------------------------------------------------------------------- *)
(** * Properties *)
(* ------------------------------------------------------------------------- *)

(** ** The order on instants *)

Ltac unfold_cmp :=
  unfold Datetime.ltb, Datetime.geb, Datetime.compare in *.

Ltac cmp_cases :=
  repeat match goal with
         | |- context [?a ?= ?b] => destruct (Z.compare_spec a b)
         | H : context [?a ?= ?b] |- _ => destruct (Z.compare_spec a b)
         end.

Lemma compare_refl (a : datetime) : Datetime.compare a a = Eq.
Proof. unfold Datetime.compare. now rewrite !Z.compare_refl. Qed.

Lemma geb_refl (a : datetime) : Datetime.geb a a = true.
Proof. unfold Datetime.geb. now rewrite compare_refl. Qed.

Lemma geb_negb_ltb (a b : datetime) :
  Datetime.geb a b = negb (Datetime.ltb a b).
Proof.
  unfold Datetime.geb, Datetime.ltb. now destruct (Datetime.compare a b).
Qed.

Lemma ltb_irrefl (a : datetime) : Datetime.ltb a a = false.
Proof. unfold Datetime.ltb. now rewrite compare_refl. Qed.

Lemma ltb_ordinal_le (a b : datetime) :
  Datetime.ltb a b = true -> ordinal a <= ordinal b.
Proof. unfold_cmp. cmp_cases; intros; try discriminate; lia. Qed.

Lemma ltb_trans (a b c : datetime) :
  Datetime.ltb a b = true -> Datetime.ltb b c = true -> Datetime.ltb a c = true.
Proof.
  unfold_cmp. intros Hab Hbc.
  cmp_cases; try discriminate; try reflexivity; try lia.
Qed.

Lemma ltb_asym (a b : datetime) :
  Datetime.ltb a b = true -> Datetime.ltb b a = false.
Proof.
  unfold_cmp. intros Hab.
  cmp_cases; try discriminate; try reflexivity; try lia.
Qed.

Lemma ltb_total (a b : datetime) :
  Datetime.ltb a b = false -> Datetime.ltb b a = false -> a = b.
Proof.
  unfold_cmp. intros Hab Hba. destruct a, b; simpl in *.
  cmp_cases; try discriminate; try lia. subst. reflexivity.
Qed.

(** Not-less is transitive: the order is total. *)
Lemma nlt_trans (a b c : datetime) :
  Datetime.ltb b a = false -> Datetime.ltb c b = false ->
  Datetime.ltb c a = false.
Proof.
  unfold_cmp. intros Hab Hbc.
  cmp_cases; try discriminate; try reflexivity; try lia.
Qed.

Lemma geb_date_lt (a b : datetime) :
  ordinal a < ordinal b -> Datetime.geb a b = false.
Proof.
  intros Hlt. unfold Datetime.geb, Datetime.compare.
  destruct (Z.compare_spec (ordinal a) (ordinal b)); lia || reflexivity.
Qed.

(** An instant that is not before the midnight that follows or equals its
    date is that midnight. *)
Lemma geb_midnight_eq (o : Z) (e : datetime) :
  valid e -> o <= ordinal e -> Datetime.geb (midnight o) e = true ->
  e = midnight o.
Proof.
  intros (Ho & Hh & Hm & Hs & Hu) Hle.
  unfold Datetime.geb, Datetime.compare, midnight. destruct e.
  cbn [ordinal hour minute second microsecond] in *.
  cmp_cases; try discriminate; try lia. subst. intros _. reflexivity.
Qed.

(** On valid datetimes the comparison of the fields agrees with the sign of
    the difference. *)
Lemma geb_iff_sub_nonneg (a b : datetime) :
  valid a -> valid b -> (Datetime.geb a b = true <-> 0 <= sub a b).
Proof.
  intros (_ & Hah & Ham & Has & Hau) (_ & Hbh & Hbm & Hbs & Hbu).
  unfold Datetime.geb, Datetime.compare, sub.
  cmp_cases; split; intros Hx; try discriminate; try reflexivity; lia.
Qed.

(** ** The day-by-day walk *)

Section WalkFacts.

Context {num : Type} `{PyNumber num}.

Lemma walk_loop (e : datetime) (st : walk_state) :
  walk e st =
  if date_ltb (fst st) e then bind (walk_body st) (walk e) else Ok st.
Proof.
  funelim (walk e st).
  - rewrite e. reflexivity.
  - rewrite Hcond, Hbody. reflexivity.
  - rewrite Hcond, e1. reflexivity.
Qed.

Lemma walk_done (e cur : datetime) (t : num) :
  ordinal e <= ordinal cur -> walk e (cur, t) = Ok (cur, t).
Proof.
  intros Hle. rewrite walk_loop. unfold date_ltb; simpl.
  destruct (Z.ltb_spec (ordinal cur) (ordinal e)); [lia | reflexivity].
Qed.

Lemma next_midnight_ok (cur : datetime) :
  0 <= ordinal cur < MAXORDINAL ->
  next_midnight cur = Ok (midnight (ordinal cur + 1)).
Proof.
  intros Hr. unfold next_midnight, add_days.
  destruct (Z.ltb_spec 0 (ordinal cur + 1)); [|lia].
  destruct (Z.leb_spec (ordinal cur + 1) MAXORDINAL); [|lia].
  reflexivity.
Qed.

Lemma walk_body_ok (cur : datetime) (t : num) :
  0 <= ordinal cur < MAXORDINAL ->
  walk_body (cur, t) = Ok (midnight (ordinal cur + 1), add_day_hours cur t).
Proof.
  intros Hr. unfold walk_body. rewrite next_midnight_ok by assumption.
  reflexivity.
Qed.

(** Whenever the body completes, the carried date has moved on by one day. *)
Lemma walk_body_advances (st st' : walk_state) :
  walk_body st = Ok st' -> ordinal (fst st') = ordinal (fst st) + 1.
Proof.
  destruct st as [cur t]. unfold walk_body, next_midnight, add_days.
  destruct ((0 <? ordinal cur + 1) && (ordinal cur + 1 <=? MAXORDINAL));
    simpl; [|discriminate].
  intros [= <-]. reflexivity.
Qed.

Lemma walk_step (e cur : datetime) (t : num) :
  0 <= ordinal cur -> ordinal cur < ordinal e -> ordinal e <= MAXORDINAL ->
  walk e (cur, t) = walk e (midnight (ordinal cur + 1), add_day_hours cur t).
Proof.
  intros H0 Hlt Hmax. rewrite walk_loop at 1. unfold date_ltb; simpl fst.
  destruct (Z.ltb_spec (ordinal cur) (ordinal e)); [|lia].
  rewrite walk_body_ok by lia. reflexivity.
Qed.

(** The walk ends at midnight of [e]'s date once it has started before it. *)
Lemma walk_reaches (e : datetime) (n : nat) :
  forall (cur : datetime) (t : num),
    0 <= ordinal cur -> ordinal e <= MAXORDINAL ->
    ordinal e - ordinal cur = Z.of_nat (S n) ->
    exists t', walk e (cur, t) = Ok (midnight (ordinal e), t').
Proof.
  induction n as [|n IH]; intros cur t H0 Hmax Hn.
  - rewrite walk_step by lia. rewrite walk_done by (simpl; lia).
    replace (ordinal cur + 1) with (ordinal e) by lia. eauto.
  - rewrite walk_step by lia. apply IH; simpl; lia.
Qed.

Lemma walk_final_state (e cur : datetime) (t : num) :
  0 <= ordinal cur -> ordinal e <= MAXORDINAL -> ordinal cur <= ordinal e ->
  exists t',
    walk e (cur, t) =
    Ok (if date_eqb cur e then cur else midnight (ordinal e), t').
Proof.
  intros H0 Hmax Hle. unfold date_eqb.
  destruct (Z.eqb_spec (ordinal cur) (ordinal e)) as [Heq|Hne].
  - rewrite walk_done by lia. eauto.
  - apply (walk_reaches e (Z.to_nat (ordinal e - ordinal cur - 1))); lia.
Qed.

(** The walk up to [e] can be cut at any day [d] on the way. *)
Lemma walk_split (e : datetime) (d : Z) (n : nat) :
  forall (cur : datetime) (t : num),
    0 <= ordinal cur -> ordinal e <= MAXORDINAL -> d <= ordinal e ->
    d - ordinal cur = Z.of_nat n ->
    walk e (cur, t) = bind (walk (midnight d) (cur, t)) (walk e).
Proof.
  induction n as [|n IH]; intros cur t H0 Hmax Hd Hn.
  - rewrite (walk_done (midnight d)) by (simpl; lia). reflexivity.
  - rewrite (walk_step e) by lia.
    rewrite (walk_step (midnight d)) by (simpl; lia).
    apply IH; simpl; lia.
Qed.

End WalkFacts.

Lemma weekend_adds_nothing {num : Type} `{PyNumber num}
  (cur : datetime) (t : num) :
  is_weekend (ordinal cur) = true -> add_day_hours cur t = t.
Proof.
  unfold is_weekend, add_day_hours, weekday. intros Hw.
  apply Z.leb_le in Hw.
  destruct (Z.ltb_spec ((ordinal cur + 6) mod 7) 5); [lia | reflexivity].
Qed.

(** ** The walk in exact arithmetic *)

Section ExactHours.

Local Open Scope Q_scope.

Lemma add_day_hours_shift (cur : datetime) (t1 t2 x : Q) :
  t2 == t1 + x -> add_day_hours cur t2 == add_day_hours cur t1 + x.
Proof.
  intros Ht. unfold add_day_hours.
  destruct (weekday cur <? 5)%Z; [|exact Ht].
  cbn [num_add Q_number]. rewrite Ht. ring.
Qed.

Lemma add_final_hours_shift (e c : datetime) (t1 t2 x : Q) :
  t2 == t1 + x ->
  add_final_hours e (c, t2) == add_final_hours e (c, t1) + x.
Proof.
  intros Ht. unfold add_final_hours.
  destruct (date_eqb c e && (weekday c <? 5)%Z); [|exact Ht].
  cbn [num_add Q_number]. rewrite Ht. ring.
Qed.

(** Two walks from the same instant whose totals differ by [x] end at the
    same instant with totals that differ by [x]. *)
Lemma walk_shift (e : datetime) (n : nat) :
  forall (cur : datetime) (t1 t2 x : Q),
    (0 <= ordinal cur)%Z -> (ordinal e <= MAXORDINAL)%Z ->
    (ordinal e - ordinal cur = Z.of_nat n)%Z ->
    t2 == t1 + x ->
    exists (c : datetime) (t1' t2' : Q),
      walk e (cur, t1) = Ok (c, t1') /\
      walk e (cur, t2) = Ok (c, t2') /\
      t2' == t1' + x.
Proof.
  induction n as [|n IH]; intros cur t1 t2 x H0 Hmax Hn Ht.
  - exists cur, t1, t2. rewrite !walk_done by lia. auto.
  - rewrite !(walk_step e cur) by lia.
    apply IH; simpl; try lia. now apply add_day_hours_shift.
Qed.

End ExactHours.

Lemma weekend_day_splits (start_time end_time : datetime) (d : Z) :
  valid start_time -> valid end_time -> is_weekend d = true ->
  ordinal start_time < d < ordinal end_time ->
  exists a b c : Q,
    calculate_business_hours start_time end_time = Ok a /\
    calculate_business_hours start_time (midnight d) = Ok b /\
    calculate_business_hours (midnight (d + 1)) end_time = Ok c /\
    (a == b + c)%Q.
Proof.
  intros Hs He Hw Hd.
  pose proof Hs as (Hso & _). pose proof He as (Heo & _).
  unfold calculate_business_hours.
  rewrite (geb_date_lt start_time end_time) by lia.
  rewrite (geb_date_lt start_time (midnight d)) by (simpl; lia).
  rewrite (walk_split end_time d (Z.to_nat (d - ordinal start_time)))
    by lia.
  destruct (walk_reaches (num:=Q) (midnight d)
              (Z.to_nat (d - ordinal start_time - 1))
              start_time (num_of_int 0)) as [t1 Ht1];
    try (simpl; lia).
  rewrite Ht1. simpl ordinal. cbn [bind].
  rewrite walk_step by (simpl; lia). simpl ordinal.
  rewrite weekend_adds_nothing by exact Hw.
  assert (Hb : add_final_hours (midnight d) (midnight d, t1) = t1).
  { unfold add_final_hours, weekday, date_eqb. simpl ordinal.
    unfold is_weekend in Hw. apply Z.leb_le in Hw.
    destruct (Z.ltb_spec ((d + 6) mod 7) 5); [lia|].
    now rewrite andb_false_r. }
  rewrite Hb.
  destruct (Datetime.geb (midnight (d + 1)) end_time) eqn:Hge.
  - apply geb_midnight_eq in Hge; [|assumption|lia]. subst end_time.
    rewrite walk_done by (simpl; lia). cbn [bind].
    eexists _, t1, (num_of_int (num:=Q) 0). repeat split.
    unfold add_final_hours, date_eqb. simpl ordinal. rewrite Z.eqb_refl.
    destruct (weekday (midnight (d + 1)) <? 5); simpl.
    + unfold sub; simpl. replace ((d + 1 - (d + 1)) * 86400 + 0) with 0 by lia.
      simpl. unfold Qeq; simpl. lia.
    + unfold Qeq; simpl. lia.
  - destruct (walk_shift end_time (Z.to_nat (ordinal end_time - (d + 1)))
                (midnight (d + 1)) (num_of_int (num:=Q) 0) t1 t1)
      as (c & t1' & t2' & Hw1 & Hw2 & Heq); try (simpl; lia).
    { cbn. ring. }
    rewrite Hw1, Hw2. cbn [bind].
    eexists _, t1, _. repeat split.
    rewrite (add_final_hours_shift end_time c t1' t2' t1 Heq). ring.
Qed.

(** ** Claims about [calculate_business_hours] *)

Lemma valid_validb (d : datetime) : validb d = true -> valid d.
Proof.
  unfold validb, valid. rewrite !andb_true_iff.
  rewrite !Z.leb_le, !Z.ltb_lt. tauto.
Qed.

(** C7: whenever [start_time >= end_time] (Python's comparison of the two
    datetimes), and in particular when both are the same instant,
    [calculate_business_hours] returns the integer 0 instead of raising. *)
Theorem backwards_interval_is_zero {num : Type} `{PyNumber num}
  (start_time end_time : datetime)
  (Hge : Datetime.geb start_time end_time = true) :
  calculate_business_hours start_time end_time = Ok (num_of_int 0) /\
  calculate_business_hours start_time start_time = Ok (num_of_int 0).
Proof.
  unfold calculate_business_hours. rewrite Hge, geb_refl. split; reflexivity.
Qed.

Lemma backwards_interval_is_zero_witness :
  Datetime.geb tuesday_0900 monday_0900 = true /\
  calculate_business_hours (num:=Q) tuesday_0900 monday_0900 = Ok 0%Q.
Proof.
  split; [reflexivity|].
  exact (proj1 (backwards_interval_is_zero (num:=Q) tuesday_0900 monday_0900
                  eq_refl)).
Defined.

(** C9: on any two datetimes [calculate_business_hours] returns a value.
    Every completed iteration of the loop moves the carried date forward by
    exactly one day, no iteration started before [end_time]'s date raises,
    and when [start_time < end_time] the loop is left with the carried
    instant on [end_time]'s date: [start_time] itself when both share a
    date, midnight of that date otherwise. *)
Theorem walk_ends_on_end_date {num : Type} `{PyNumber num}
  (start_time end_time : datetime)
  (Hs : valid start_time) (He : valid end_time) :
  (exists hours, calculate_business_hours start_time end_time = Ok hours) /\
  (forall st st' : walk_state,
      walk_body st = Ok st' -> ordinal (fst st') = ordinal (fst st) + 1) /\
  (forall (current : datetime) (total_hours : num),
      1 <= ordinal current -> date_ltb current end_time = true ->
      exists st', walk_body (current, total_hours) = Ok st') /\
  (Datetime.ltb start_time end_time = true ->
   exists total_hours,
     walk end_time (start_time, num_of_int 0) =
     Ok (if date_eqb start_time end_time
         then start_time
         else midnight (ordinal end_time), total_hours)).
Proof.
  pose proof Hs as (Hso & _). pose proof He as (Heo & _).
  assert (Hwalk : Datetime.ltb start_time end_time = true ->
                  exists total_hours,
                    walk end_time (start_time, num_of_int 0) =
                    Ok (if date_eqb start_time end_time
                        then start_time
                        else midnight (ordinal end_time), total_hours)).
  { intros Hlt. apply walk_final_state; try lia.
    now apply ltb_ordinal_le. }
  repeat split.
  - unfold calculate_business_hours. rewrite geb_negb_ltb.
    destruct (Datetime.ltb start_time end_time) eqn:Hlt; simpl.
    + destruct (Hwalk eq_refl) as [t Ht]. rewrite Ht. simpl. eauto.
    + eauto.
  - apply walk_body_advances.
  - intros current total_hours H1 Hlt. unfold date_ltb in Hlt.
    apply Z.ltb_lt in Hlt. rewrite walk_body_ok by lia. eauto.
  - exact Hwalk.
Qed.

Lemma walk_ends_on_end_date_witness :
  exists total_hours : Q,
    walk tuesday_0900 (monday_0900, 0%Q) =
    Ok (midnight (ordinal tuesday_0900), total_hours).
Proof.
  refine (proj2 (proj2 (proj2
            (walk_ends_on_end_date (num:=Q) monday_0900 tuesday_0900 _ _))) _).
  - apply valid_validb. reflexivity.
  - apply valid_validb. reflexivity.
  - reflexivity.
Defined.

(** C1, the code evaluated on the inputs of the claim: from Monday 00:00 to
    Tuesday 00:00 the function returns one microsecond less than 24 hours
    (86399.999999 s / 3600), both in exact arithmetic and in binary64, and
    so do both scripts for a request created Monday 09:00 and first reviewed
    Tuesday 09:00. *)
Theorem full_business_day_is_one_microsecond_short :
  (exists h : Q,
      calculate_business_hours monday_0000 tuesday_0000 = Ok h /\
      (h == 86399999999 # 3600000000)%Q /\ ~ (h == 24)%Q) /\
  (exists h : float,
      calculate_business_hours monday_0000 tuesday_0000 = Ok h /\
      PrimFloat.eqb h 24 = false /\ PrimFloat.ltb h 24 = true) /\
  (exists h : Q,
      GitLab.get_first_review_time reviewed_on_tuesday monday_0900
      = Ok (Some h) /\
      (h == 86399999999 # 3600000000)%Q /\ ~ (h == 24)%Q) /\
  (exists h : float,
      GitLab.get_first_review_time reviewed_on_tuesday monday_0900
      = Ok (Some h) /\
      PrimFloat.eqb h 24 = false /\ PrimFloat.ltb h 24 = true) /\
  (exists h : Q,
      GitHub.get_first_review_time commented_on_tuesday monday_0900
      = Ok (Some h) /\
      (h == 86399999999 # 3600000000)%Q /\ ~ (h == 24)%Q) /\
  (exists h : float,
      GitHub.get_first_review_time commented_on_tuesday monday_0900
      = Ok (Some h) /\
      PrimFloat.eqb h 24 = false /\ PrimFloat.ltb h 24 = true).
Proof.
  repeat split;
    (eexists; split; [vm_compute; reflexivity|]; split;
     [vm_compute; reflexivity | vm_compute; congruence]).
Qed.

(** C6: the hours from Friday 17:00 to the next Monday 09:00 are the hours
    from Friday 17:00 to Friday 23:59:59.999999 plus the hours from Monday
    00:00 to Monday 09:00, in exact arithmetic and in binary64.  In general
    an iteration of the loop on a Saturday or Sunday leaves the running
    total untouched, and for any weekend day [d] strictly between the dates
    of the two instants the result is the hours up to midnight of [d] plus
    the hours from the following midnight on. *)
Theorem weekend_days_contribute_nothing :
  (exists a b c : Q,
      calculate_business_hours friday_1700 next_monday_0900 = Ok a /\
      calculate_business_hours friday_1700 friday_last_microsecond = Ok b /\
      calculate_business_hours next_monday_0000 next_monday_0900 = Ok c /\
      (a == b + c)%Q) /\
  (exists a b c : float,
      calculate_business_hours friday_1700 next_monday_0900 = Ok a /\
      calculate_business_hours friday_1700 friday_last_microsecond = Ok b /\
      calculate_business_hours next_monday_0000 next_monday_0900 = Ok c /\
      PrimFloat.eqb a (PrimFloat.add b c) = true) /\
  (forall (num : Type) (N : PyNumber num) (current : datetime) (total : num),
      is_weekend (ordinal current) = true ->
      add_day_hours current total = total) /\
  (forall (start_time end_time : datetime) (d : Z),
      valid start_time -> valid end_time -> is_weekend d = true ->
      ordinal start_time < d < ordinal end_time ->
      exists a b c : Q,
        calculate_business_hours start_time end_time = Ok a /\
        calculate_business_hours start_time (midnight d) = Ok b /\
        calculate_business_hours (midnight (d + 1)) end_time = Ok c /\
        (a == b + c)%Q).
Proof.
  split; [|split; [|split]].
  - do 3 eexists. repeat split; vm_compute; reflexivity.
  - do 3 eexists. repeat split; vm_compute; reflexivity.
  - intros num N current total. apply weekend_adds_nothing.
  - exact weekend_day_splits.
Qed.

Lemma weekend_days_contribute_nothing_witness :
  exists a b c : Q,
    calculate_business_hours friday_1700 next_monday_0900 = Ok a /\
    calculate_business_hours friday_1700 (midnight saturday) = Ok b /\
    calculate_business_hours (midnight (saturday + 1)) next_monday_0900
    = Ok c /\
    (a == b + c)%Q.
Proof.
  refine (proj2 (proj2 (proj2 weekend_days_contribute_nothing))
            friday_1700 next_monday_0900 saturday _ _ _ _).
  - apply valid_validb. reflexivity.
  - apply valid_validb. reflexivity.
  - reflexivity.
  - vm_compute. split; reflexivity.
Defined.

(** ** Searching in strings *)

Section StringFacts.

Local Open Scope string_scope.

Lemma append_assoc (a b c : string) : (a ++ b) ++ c = a ++ b ++ c.
Proof. induction a as [|x a IH]; simpl; [reflexivity | now rewrite IH]. Qed.

Lemma startswith_spec (p s : string) :
  startswith p s = true <-> exists post, s = p ++ post.
Proof.
  revert s. induction p as [|a p IH]; intros s; simpl.
  - split; [intros _; now exists s | reflexivity].
  - destruct s as [|b s].
    + split; [discriminate | intros [post Hp]; discriminate].
    + rewrite andb_true_iff, Ascii.eqb_eq, IH. split.
      * intros [-> [post ->]]. now exists post.
      * intros [post [= -> ->]]. split; [reflexivity | now exists post].
Qed.

Lemma str_in_spec (p s : string) : str_in p s = true <-> occurs p s.
Proof.
  unfold occurs. induction s as [|b s IH].
  - simpl. rewrite orb_false_r, startswith_spec. split.
    + intros [post Hp]. now exists "", post.
    + intros [[|x pre] [post Hp]]; [now exists post | discriminate].
  - cbn [str_in]. rewrite orb_true_iff, IH, startswith_spec. split.
    + intros [[post Hp] | (pre & post & Hp)].
      * now exists "", post.
      * exists (String b pre), post. simpl. now rewrite Hp.
    + intros [[|x pre] [post Hp]].
      * left. now exists post.
      * right. simpl in Hp. injection Hp as -> ->. now exists pre, post.
Qed.

Lemma lower_app (a b : string) : lower (a ++ b) = lower a ++ lower b.
Proof. induction a as [|x a IH]; simpl; [reflexivity | now rewrite IH]. Qed.

(** A cut of [lower s] comes from a cut of [s]. *)
Lemma lower_split (s a b : string) :
  lower s = a ++ b ->
  exists s1 s2, s = s1 ++ s2 /\ lower s1 = a /\ lower s2 = b.
Proof.
  revert s. induction a as [|x a IH]; intros s Hs.
  - exists "", s. auto.
  - destruct s as [|c s]; simpl in Hs; [discriminate|].
    injection Hs as Hx Hrest. destruct (IH s Hrest) as (s1 & s2 & -> & <- & <-).
    exists (String c s1), s2. simpl. now rewrite Hx.
Qed.

(** Searching the lowered text is searching the text with case ignored. *)
Lemma str_in_lower (p s : string) :
  str_in p (lower s) = true <-> occurs_ignoring_case p s.
Proof.
  rewrite str_in_spec. unfold occurs, occurs_ignoring_case. split.
  - intros (pre & post & Hs).
    destruct (lower_split _ _ _ Hs) as (s1 & s23 & -> & <- & H23).
    destruct (lower_split _ _ _ H23) as (s2 & s3 & -> & <- & <-).
    now exists s1, s2, s3.
  - intros (pre & mid & post & -> & <-).
    exists (lower pre), (lower post). now rewrite !lower_app.
Qed.

End StringFacts.

(** ** The classifier *)

Section ClassifierFacts.

Import GitLab.

Lemma classify_notes_app (l1 l2 : list note) (acc : list activity) :
  classify_notes (l1 ++ l2) acc =
  (acc' <- classify_notes l1 acc ;; classify_notes l2 acc').
Proof.
  revert acc. induction l1 as [|n l1 IH]; intros acc; simpl; [reflexivity|].
  destruct (classify_note n acc) as [acc'|e]; simpl; [apply IH | reflexivity].
Qed.

Lemma is_review_request_spec (n : note) :
  is_review_request n = true <->
  occurs_ignoring_case "requested review" (raw_body n) \/
  occurs_ignoring_case "removed review request" (raw_body n).
Proof.
  unfold is_review_request, lowered_body.
  now rewrite orb_true_iff, !str_in_lower.
Qed.

End ClassifierFacts.

(** C4: an event whose body contains "requested review" or "removed review
    request", with the case of letters ignored, is never a candidate,
    whatever its system flag and whatever else its body says: the loop
    leaves [review_activities] as it was, and the candidates of a notes list
    are those of the list without that event. *)
Theorem review_request_markers_are_excluded (n : GitLab.note)
  (Hmarker :
     occurs_ignoring_case "requested review" (GitLab.raw_body n) \/
     occurs_ignoring_case "removed review request" (GitLab.raw_body n)) :
  GitLab.is_candidate n = false /\
  (forall acc : list activity,
      GitLab.classify_note n acc = (_ <- GitLab.note_created_at n ;; Ok acc)) /\
  (forall (t : datetime) (before after : list GitLab.note)
          (acc : list activity),
      GitLab.note_created_at n = Ok t ->
      GitLab.classify_notes (before ++ n :: after) acc =
      GitLab.classify_notes (before ++ after) acc).
Proof.
  apply is_review_request_spec in Hmarker.
  assert (Hc : GitLab.is_candidate n = false).
  { unfold GitLab.is_candidate. rewrite Hmarker. apply andb_false_r. }
  assert (Hn : forall acc, GitLab.classify_note n acc =
                           (_ <- GitLab.note_created_at n ;; Ok acc)).
  { intros acc. unfold GitLab.classify_note. now rewrite Hc. }
  repeat split; try assumption.
  intros t before after acc Ht.
  rewrite !classify_notes_app. simpl.
  destruct (GitLab.classify_notes before acc) as [acc'|e]; simpl;
    [|reflexivity].
  rewrite Hn, Ht. reflexivity.
Qed.

Lemma review_request_markers_are_excluded_witness :
  GitLab.is_review_activity approval_with_review_request = true /\
  GitLab.is_candidate approval_with_review_request = false.
Proof.
  split; [reflexivity|].
  refine (proj1 (review_request_markers_are_excluded
                   approval_with_review_request _)).
  left. exists "Approved this merge request and "%string,
               "REQUESTED REVIEW"%string, " from Eve"%string.
  split; reflexivity.
Defined.

(** C3, as stated, fails: a comment that is not system-generated and whose
    body mentions a review request is not a candidate. *)
Lemma comment_about_review_request_is_dropped :
  GitLab.is_system comment_about_review_request = false /\
  GitLab.is_candidate comment_about_review_request = false /\
  GitLab.classify_notes [comment_about_review_request] [] = Ok [].
Proof. repeat split. Qed.

(** C3, amended: an event that is not system-generated and whose body does
    not contain "requested review" or "removed review request" (case
    ignored) is a candidate, whatever else its body says; once its timestamp
    is parsed it is appended to [review_activities]. *)
Theorem comment_without_marker_is_included (n : GitLab.note)
  (Hsys : GitLab.is_system n = false)
  (H1 : ~ occurs_ignoring_case "requested review" (GitLab.raw_body n))
  (H2 : ~ occurs_ignoring_case "removed review request" (GitLab.raw_body n)) :
  GitLab.is_candidate n = true /\
  (forall (t : datetime) (acc : list activity),
      GitLab.note_created_at n = Ok t ->
      GitLab.classify_note n acc = Ok (acc ++ [GitLab.note_activity n t])) /\
  (forall (t : datetime) (before after : list GitLab.note)
          (acc : list activity),
      GitLab.note_created_at n = Ok t ->
      GitLab.classify_notes (before ++ n :: after) acc =
      (acc' <- GitLab.classify_notes before acc ;;
       GitLab.classify_notes after (acc' ++ [GitLab.note_activity n t]))).
Proof.
  assert (Hr : GitLab.is_review_request n = false).
  { destruct (GitLab.is_review_request n) eqn:Hr; [|reflexivity].
    apply is_review_request_spec in Hr. tauto. }
  assert (Hc : GitLab.is_candidate n = true).
  { unfold GitLab.is_candidate, GitLab.is_review_activity.
    now rewrite Hsys, Hr. }
  assert (Hn : forall t acc, GitLab.note_created_at n = Ok t ->
     GitLab.classify_note n acc = Ok (acc ++ [GitLab.note_activity n t])).
  { intros t acc Ht. unfold GitLab.classify_note. now rewrite Ht, Hc. }
  repeat split; try assumption.
  intros t before after acc Ht.
  rewrite classify_notes_app. simpl.
  destruct (GitLab.classify_notes before acc) as [acc'|e]; simpl;
    [|reflexivity].
  now rewrite (Hn t acc' Ht).
Qed.

Lemma comment_without_marker_is_included_witness :
  GitLab.classify_notes [review_note_tuesday] [] =
  Ok [GitLab.note_activity review_note_tuesday tuesday_0900].
Proof.
  refine (proj2 (proj2 (comment_without_marker_is_included
                          review_note_tuesday _ _ _))
            tuesday_0900 [] [] [] _).
  - reflexivity.
  - intros Hocc. apply str_in_lower in Hocc. discriminate Hocc.
  - intros Hocc. apply str_in_lower in Hocc. discriminate Hocc.
  - reflexivity.
Defined.

(** ** Sorting by time and the selection *)

Lemma insert_by_time_perm (a : activity) (l : list activity) :
  Permutation (a :: l) (insert_by_time a l).
Proof.
  induction l as [|b l IH]; simpl; [reflexivity|].
  destruct (Datetime.ltb (act_time b) (act_time a)); [|reflexivity].
  rewrite perm_swap. now apply perm_skip.
Qed.

Lemma sort_by_time_perm (l : list activity) :
  Permutation l (sort_by_time l).
Proof.
  induction l as [|a l IH]; simpl; [reflexivity|].
  rewrite <- insert_by_time_perm. now apply perm_skip.
Qed.

Lemma insert_by_time_sorted (a : activity) (l : list activity) :
  Sorted time_le l -> Sorted time_le (insert_by_time a l).
Proof.
  induction l as [|b l IH]; intros Hs; simpl.
  - constructor; constructor.
  - inversion Hs as [|? ? Hl Hb]; subst.
    destruct (Datetime.ltb (act_time b) (act_time a)) eqn:Hba.
    + constructor; [now apply IH|].
      destruct l as [|c l]; simpl.
      * constructor. unfold time_le. now apply ltb_asym.
      * destruct (Datetime.ltb (act_time c) (act_time a)).
        -- inversion Hb; subst. now constructor.
        -- constructor. unfold time_le. now apply ltb_asym.
    + constructor; [assumption|]. constructor. exact Hba.
Qed.

Lemma sort_by_time_sorted (l : list activity) : Sorted time_le (sort_by_time l).
Proof.
  induction l as [|a l IH]; simpl; [constructor|].
  now apply insert_by_time_sorted.
Qed.

Lemma sort_by_time_head (l : list activity) :
  match sort_by_time l with
  | [] => l = []
  | m :: _ => earliest_in m l
  end.
Proof.
  induction l as [|a l IH]; simpl; [reflexivity|].
  destruct (sort_by_time l) as [|m r]; simpl.
  - subst l. split; [now left|].
    constructor; [apply ltb_irrefl | constructor].
  - destruct IH as [Hin Hall].
    destruct (Datetime.ltb (act_time m) (act_time a)) eqn:Hma.
    + split; [now right|].
      constructor; [now apply ltb_asym | assumption].
    + split; [now left|].
      constructor; [apply ltb_irrefl|].
      eapply Forall_impl; [|exact Hall]. intros b Hb. simpl in Hb.
      exact (nlt_trans (act_time a) (act_time m) (act_time b) Hma Hb).
Qed.

Lemma earliest_review_time_spec (l : list activity) :
  match earliest_review_time l with
  | None => l = []
  | Some t =>
    In t (map act_time l) /\
    Forall (fun a => Datetime.ltb (act_time a) t = false) l
  end.
Proof.
  unfold earliest_review_time. destruct l as [|a l]; [reflexivity|].
  pose proof (sort_by_time_head (a :: l)) as Hh.
  destruct (sort_by_time (a :: l)) as [|m r]; [discriminate|].
  destruct Hh as [Hin Hall]. split; [now apply in_map | assumption].
Qed.

(** The selection on events at 03:00, 01:00 and 02:00 is the event at
    01:00. *)
Example earliest_of_3_1_2 :
  earliest_review_time events_3_1_2 = Some (act_time (event_at 1)).
Proof. reflexivity. Qed.




(** ** The aggregation *)

Section AggregationFacts.

Context {num : Type} `{PyNumber num}.

Lemma getitem_app_here {A : Type} (pre : list A) (a : A) (post : list A) :
  getitem (pre ++ a :: post) (List.length pre) = Ok a.
Proof.
  unfold getitem. rewrite nth_error_app2 by lia.
  now rewrite Nat.sub_diag.
Qed.

(** With the three lists of equal length, reading by index is reading the
    lists in step. *)
Lemma activity_loop_in_step (requests : list request) :
  forall (counts pre_c : list Z) (times pre_t : list (option num))
         (acc : activity_lists),
    List.length counts = List.length requests ->
    List.length times = List.length requests ->
    List.length pre_c = List.length pre_t ->
    activity_loop (List.length pre_c) requests
      (pre_c ++ counts) (pre_t ++ times) acc =
    Ok (record_all (combine requests (combine counts times)) acc).
Proof.
  induction requests as [|mr rest IH];
    intros counts pre_c times pre_t acc Hc Ht Hp.
  - reflexivity.
  - destruct counts as [|c counts]; [discriminate|].
    destruct times as [|t times]; [discriminate|].
    simpl in Hc, Ht. cbn [activity_loop].
    rewrite getitem_app_here. cbn [bind].
    pose proof (getitem_app_here pre_t t times) as Hg. rewrite <- Hp in Hg.
    rewrite Hg. cbn [bind].
    replace (S (List.length pre_c)) with (List.length (pre_c ++ [c]))
      by (rewrite length_app; simpl; lia).
    replace (pre_c ++ c :: counts) with ((pre_c ++ [c]) ++ counts)
      by (now rewrite <- app_assoc).
    replace (pre_t ++ t :: times) with ((pre_t ++ [t]) ++ times)
      by (now rewrite <- app_assoc).
    rewrite IH; [reflexivity | lia | lia |].
    rewrite !length_app. simpl. lia.
Qed.

Lemma activity_subset_in_step (requests : list request) (counts : list Z)
  (times : list (option num)) :
  List.length counts = List.length requests ->
  List.length times = List.length requests ->
  activity_subset requests counts times =
  Ok (record_all (combine requests (combine counts times)) no_activity).
Proof.
  intros Hc Ht. unfold activity_subset.
  apply (activity_loop_in_step requests counts [] times [] no_activity);
    auto.
Qed.


Lemma results_length {A : Type} (l : list (result A)) (rs : list A) :
  results l = Ok rs -> List.length rs = List.length l.
Proof.
  revert rs. induction l as [|w l IH]; intros rs; simpl.
  - now intros [= <-].
  - destruct w as [r|e]; simpl; [|discriminate].
    destruct (results l) as [rs'|e]; simpl; [|discriminate].
    intros [= <-]. simpl. now rewrite (IH rs').
Qed.

(** Workers that all return produce the list of their values. *)
Lemma results_all_ok {A : Type} (l : list (result A)) :
  Forall (fun w => exists r, w = Ok r) l -> exists rs, results l = Ok rs.
Proof.
  induction 1 as [|w l [r ->] _ [rs IH]]; simpl; [eauto|].
  rewrite IH. simpl. eauto.
Qed.




End AggregationFacts.

Section SummarizeFacts.

Context {num : Type} `{PyNumber num} {W : Type}.
Variable count_worker : W -> result Z.
Variable time_worker : request -> W -> result (option num).



End SummarizeFacts.

Section FetcherFacts.

Context {num : Type} `{PyNumber num}.

Lemma gitlab_review_time_returns (replies : GitLab.mr_replies)
  (created : datetime) :
  exists t : option num, GitLab.get_first_review_time replies created = Ok t.
Proof.
  unfold GitLab.get_first_review_time.
  destruct (GitLab.first_review_time_body replies created) as [r|e]; [eauto|].
  destruct (is_HTTPError e), (is_RequestException e); eauto.
Qed.

Lemma github_review_time_returns (replies : GitHub.pr_replies)
  (created : datetime) :
  exists t : option num, GitHub.get_first_review_time replies created = Ok t.
Proof.
  unfold GitHub.get_first_review_time.
  destruct (GitHub.first_review_time_body replies created) as [r|e]; [eauto|].
  destruct (is_HTTPError e), (is_RequestException e); eauto.
Qed.


Lemma github_review_time_of_failure (replies : GitHub.pr_replies)
  (created : datetime) (e : exn) :
  GitHub.first_review_time_body (num:=num) replies created = Raise e ->
  GitHub.get_first_review_time (num:=num) replies created = Ok None.
Proof.
  unfold GitHub.get_first_review_time. intros ->.
  destruct (is_HTTPError e), (is_RequestException e); reflexivity.
Qed.


End FetcherFacts.

(** An exception outside the [RequestException] family leaves the
    comment-count fetch, and is absorbed by the review-time fetch. *)
Lemma other_exceptions_and_the_fetchers {num : Type} `{PyNumber num}
  (e : exn) (replies : GitLab.mr_replies) (created : datetime) :
  is_RequestException e = false ->
  GitLab.get_review_comment_count (Raise e) = Raise e /\
  (GitLab.notes_response replies = Raise e ->
   GitLab.get_first_review_time (num:=num) replies created = Ok None).
Proof.
  intros He. split.
  - unfold GitLab.get_review_comment_count. simpl. rewrite He.
    now destruct e.
  - intros Hn. unfold GitLab.get_first_review_time,
      GitLab.first_review_time_body, GitLab.review_candidates.
    rewrite Hn. simpl. now destruct e.
Qed.

(** ** Claims about the fetchers and the aggregation *)




(** C2, as stated, fails: on the counts [0, 5, 0] and the review times
    [None, 2.0, 3.0] the mean comment count that is reported is 5/2, not 5. *)
Lemma mean_comments_of_0_5_0_is_not_five :
  exists (lists : activity_lists) (mean : Q),
    activity_subset three_requests counts_0_5_0 times_none_2_3 = Ok lists /\
    comment_stats (make_report lists) = Some (mean, 5, 0) /\
    (mean == 5 # 2)%Q /\ ~ (mean == 5)%Q.
Proof.
  do 2 eexists. repeat split; vm_compute; congruence.
Qed.

(** C2, amended: on the counts [0, 5, 0] and the review times
    [None, 2.0, 3.0] the activity subset is made of the requests at indices
    1 and 2, their comment counts are [5, 0] with mean 2.5, maximum 5 and
    minimum 0, and the mean of the review times is 2.5; in exact arithmetic
    and in binary64. *)
Theorem aggregate_of_counts_0_5_0 :
  (exists (lists : activity_lists) (mean_count mean_time : Q),
      activity_subset three_requests counts_0_5_0 times_none_2_3 = Ok lists /\
      with_activity lists = [request_1; request_2] /\
      activity_comment_counts lists = [5; 0] /\
      activity_total (make_report lists) = 2 /\
      comment_stats (make_report lists) = Some (mean_count, 5, 0) /\
      review_stats (make_report lists) = Some mean_time /\
      (mean_count == 5 # 2)%Q /\ (mean_time == 5 # 2)%Q) /\
  (exists (lists : activity_lists) (mean_count mean_time : float),
      activity_subset three_requests counts_0_5_0 times_none_2_3 = Ok lists /\
      with_activity lists = [request_1; request_2] /\
      activity_comment_counts lists = [5; 0] /\
      activity_total (make_report lists) = 2 /\
      comment_stats (make_report lists) = Some (mean_count, 5, 0) /\
      review_stats (make_report lists) = Some mean_time /\
      PrimFloat.eqb mean_count 2.5 = true /\
      PrimFloat.eqb mean_time 2.5 = true).
Proof.
  split; do 3 eexists; repeat split; vm_compute; reflexivity.
Qed.



(* ------------------------------------------------------------------------- *)
(** * Further properties *)
(* ------------------------------------------------------------------------- *)

(** ** More on [calculate_business_hours] *)

Lemma ltb_geb_false (a b : datetime) :
  Datetime.ltb a b = true -> Datetime.geb a b = false.
Proof. intros Hlt. rewrite geb_negb_ltb, Hlt. reflexivity. Qed.

(** The hours the code computes from a difference in microseconds, in exact
    arithmetic. *)
Lemma hours_of_micros_exact (td : timedelta) :
  (num_div (total_seconds (num:=Q) td) (num_of_int 3600)
   == td # 3600000000)%Q.
Proof.
  unfold total_seconds. cbn [num_div num_of_int Q_number].
  unfold Qdiv, Qmult, Qinv, Qeq, inject_Z; simpl. lia.
Qed.

(** X1: when both instants fall on the same business day and
    [start_time < end_time], the result is the plain difference of the two
    instants in hours: the integer 0 plus the microseconds between them
    divided by 10^6 and by 3600. *)
Theorem same_business_day_is_raw_difference
  (start_time end_time : datetime)
  (Hlt : Datetime.ltb start_time end_time = true)
  (Hdate : ordinal start_time = ordinal end_time)
  (Hday : weekday start_time < 5) :
  (forall (num : Type) (N : PyNumber num),
      calculate_business_hours start_time end_time =
      Ok (num_add (num_of_int 0)
            (num_div (total_seconds (sub end_time start_time))
               (num_of_int 3600)))) /\
  (exists h : Q,
      calculate_business_hours start_time end_time = Ok h /\
      (h == sub end_time start_time # 3600000000)%Q).
Proof.
  assert (Hgen : forall (num : Type) (N : PyNumber num),
             calculate_business_hours start_time end_time =
             Ok (num_add (num_of_int 0)
                   (num_div (total_seconds (sub end_time start_time))
                      (num_of_int 3600)))).
  { intros num N. unfold calculate_business_hours.
    rewrite ltb_geb_false by assumption.
    rewrite walk_done by lia. cbn [bind]. unfold add_final_hours, date_eqb.
    rewrite Hdate, Z.eqb_refl.
    destruct (Z.ltb_spec (weekday start_time) 5); [reflexivity | lia]. }
  split; [exact Hgen|].
  eexists. split; [apply Hgen|].
  cbn [num_add Q_number]. rewrite hours_of_micros_exact.
  cbn [num_of_int Q_number]. unfold Qeq, Qplus, inject_Z; simpl. lia.
Qed.

Lemma same_business_day_is_raw_difference_witness :
  exists h : Q,
    calculate_business_hours monday_0000 monday_0900 = Ok h /\ (h == 9)%Q.
Proof.
  destruct (proj2 (same_business_day_is_raw_difference
                     monday_0000 monday_0900 eq_refl eq_refl eq_refl))
    as (h & Hh & Heq).
  exists h. split; [exact Hh|]. rewrite Heq. reflexivity.
Defined.

Section WeekendWalk.

Context {num : Type} `{PyNumber num}.

(** A walk over weekend days only leaves the total as it is. *)
Lemma walk_over_weekend (e : datetime) (n : nat) :
  forall (cur : datetime) (t : num),
    0 <= ordinal cur -> ordinal e <= MAXORDINAL ->
    ordinal e - ordinal cur = Z.of_nat n ->
    (forall o, ordinal cur <= o < ordinal e -> is_weekend o = true) ->
    exists c, walk e (cur, t) = Ok (c, t) /\ ordinal c = ordinal e.
Proof.
  induction n as [|n IH]; intros cur t H0 Hmax Hn Hall.
  - rewrite walk_done by lia. exists cur. split; [reflexivity | lia].
  - rewrite walk_step by lia.
    rewrite weekend_adds_nothing by (apply Hall; lia).
    apply IH; simpl; try lia. intros o Ho. apply Hall. lia.
Qed.

End WeekendWalk.

(** X2: when every day from [start_time]'s date to [end_time]'s date is a
    Saturday or a Sunday, the function returns the integer 0. *)
Theorem weekend_only_span_is_zero {num : Type} `{PyNumber num}
  (start_time end_time : datetime)
  (Hs : valid start_time) (He : valid end_time)
  (Hall : forall o, ordinal start_time <= o <= ordinal end_time ->
                    is_weekend o = true) :
  calculate_business_hours start_time end_time = Ok (num_of_int 0).
Proof.
  destruct Hs as (Hso & _). destruct He as (Heo & _).
  unfold calculate_business_hours.
  destruct (Datetime.geb start_time end_time) eqn:Hge; [reflexivity|].
  rewrite geb_negb_ltb in Hge. apply negb_false_iff in Hge.
  pose proof (ltb_ordinal_le _ _ Hge) as Hle.
  destruct (walk_over_weekend end_time
              (Z.to_nat (ordinal end_time - ordinal start_time))
              start_time (num_of_int 0)) as (c & Hw & Hc); try lia.
  { intros o Ho. apply Hall. lia. }
  rewrite Hw. cbn [bind]. unfold add_final_hours, weekday.
  specialize (Hall (ordinal end_time) ltac:(lia)).
  unfold is_weekend in Hall. apply Z.leb_le in Hall. rewrite Hc.
  destruct (Z.ltb_spec ((ordinal end_time + 6) mod 7) 5); [lia|].
  now rewrite andb_false_r.
Qed.

Lemma weekend_only_span_is_zero_witness :
  calculate_business_hours (num:=Q) saturday_1000 sunday_1800 = Ok 0%Q.
Proof.
  refine (weekend_only_span_is_zero (num:=Q) saturday_1000 sunday_1800 _ _ _).
  - apply valid_validb. reflexivity.
  - apply valid_validb. reflexivity.
  - intros o Ho.
    change (ordinal saturday_1000) with 738891 in Ho.
    change (ordinal sunday_1800) with 738892 in Ho.
    assert (Hcases : o = 738891 \/ o = 738892) by lia.
    destruct Hcases as [-> | ->]; reflexivity.
Defined.

Section MicrosecondCount.

Local Open Scope Q_scope.

(** Adding the hours of a difference [td] to a total that stands for [m]
    microseconds gives the total that stands for [m + td]. *)
Lemma add_hours_micros (t : Q) (m td : Z) :
  t == m # 3600000000 ->
  num_add t (num_div (total_seconds td) (num_of_int 3600))
  == (m + td) # 3600000000.
Proof.
  intros Ht. cbn [num_add Q_number]. rewrite hours_of_micros_exact, Ht.
  unfold Qeq, Qplus; simpl. lia.
Qed.

Lemma ltb_sub_pos (a b : datetime) :
  valid a -> valid b -> Datetime.ltb a b = true -> (0 < sub b a)%Z.
Proof.
  intros Ha Hb Hlt.
  destruct (Z.le_gt_cases (sub b a) 0) as [Hle|Hgt]; [|lia].
  assert (Hge : (0 <= sub a b)%Z) by (unfold sub in *; lia).
  apply geb_iff_sub_nonneg in Hge; try assumption.
  rewrite geb_negb_ltb, Hlt in Hge. discriminate.
Qed.

(** The running total of the walk counts microseconds, never more than
    have elapsed since [s0]. *)
Lemma walk_counts_micros (s0 e : datetime) (n : nat) :
  forall (cur : datetime) (t : Q) (m : Z),
    valid cur -> (ordinal e <= MAXORDINAL)%Z ->
    (ordinal e - ordinal cur = Z.of_nat n)%Z ->
    t == m # 3600000000 -> (0 <= m <= sub cur s0)%Z ->
    exists (c : datetime) (t' : Q) (m' : Z),
      walk e (cur, t) = Ok (c, t') /\
      t' == m' # 3600000000 /\ (0 <= m' <= sub c s0)%Z /\
      (m <= m')%Z /\
      (c = cur \/ c = midnight (ordinal e)) /\ ordinal c = ordinal e.
Proof.
  induction n as [|n IH]; intros cur t m Hv Hmax Hn Ht Hm.
  - rewrite walk_done by lia. exists cur, t, m.
    repeat split; auto; lia.
  - pose proof Hv as (Ho & Hh & Hmi & Hs & Hu).
    rewrite walk_step by lia.
    assert (Hstep : exists m1 : Z,
               add_day_hours cur t == m1 # 3600000000 /\
               (m <= m1 <= sub (midnight (ordinal cur + 1)) s0)%Z).
    { unfold add_day_hours. destruct (weekday cur <? 5)%Z.
      - eexists. split; [apply add_hours_micros; exact Ht|].
        unfold sub, replace_time, midnight in *;
          cbn [ordinal hour minute second microsecond] in *; lia.
      - exists m. split; [exact Ht|].
        unfold sub, midnight in *;
          cbn [ordinal hour minute second microsecond] in *; lia. }
    destruct Hstep as (m1 & Ht1 & Hm1).
    destruct (IH (midnight (ordinal cur + 1)) (add_day_hours cur t) m1)
      as (c & t' & m' & Hw & Ht' & Hm' & Hmono & Hc & Hoc);
      try (simpl; lia); try assumption.
    { unfold valid, midnight, MAXORDINAL in *; simpl. lia. }
    exists c, t', m'. repeat split; try assumption; try lia.
    destruct Hc as [-> | ->]; [|now right].
    right. unfold midnight. simpl in Hoc. f_equal. exact Hoc.
Qed.

End MicrosecondCount.

(** X3: for [start_time < end_time] the result, in exact arithmetic, is a
    whole number of microseconds expressed in hours; it is never negative
    and never more than the time that elapsed between the two instants. *)
Theorem business_hours_within_elapsed_time (start_time end_time : datetime)
  (Hs : valid start_time) (He : valid end_time)
  (Hlt : Datetime.ltb start_time end_time = true) :
  exists (h : Q) (m : Z),
    calculate_business_hours start_time end_time = Ok h /\
    (h == m # 3600000000)%Q /\
    0 <= m <= sub end_time start_time /\
    (0 <= h <= sub end_time start_time # 3600000000)%Q.
Proof.
  pose proof Hs as (Hso & _). pose proof He as (Heo & Heh & Hem & Hes & Heu).
  pose proof (ltb_ordinal_le _ _ Hlt) as Hle.
  pose proof (ltb_sub_pos _ _ Hs He Hlt) as Hpos.
  unfold calculate_business_hours. rewrite ltb_geb_false by assumption.
  destruct (walk_counts_micros start_time end_time
              (Z.to_nat (ordinal end_time - ordinal start_time))
              start_time (num_of_int 0) 0)
    as (c & t' & m' & Hw & Ht' & Hm' & _ & Hc & Hoc);
    try assumption; try lia.
  { reflexivity. }
  { unfold sub. lia. }
  rewrite Hw. cbn [bind].
  assert (Hfin : exists m : Z,
             (add_final_hours end_time (c, t') == m # 3600000000)%Q /\
             0 <= m <= sub end_time start_time).
  { unfold add_final_hours.
    destruct (date_eqb c end_time && (weekday c <? 5)).
    - eexists. split; [apply add_hours_micros; exact Ht'|].
      destruct Hc as [-> | ->].
      + unfold sub in *. lia.
      + unfold sub, midnight in *;
          cbn [ordinal hour minute second microsecond] in *; lia.
    - exists m'. split; [exact Ht'|].
      destruct Hc as [-> | ->].
      + unfold sub in *. lia.
      + unfold sub, midnight in *;
          cbn [ordinal hour minute second microsecond] in *; lia. }
  destruct Hfin as (m & Hh & Hm).
  eexists _, m. split; [reflexivity|]. split; [exact Hh|].
  split; [exact Hm|]. rewrite Hh.
  unfold Qle; simpl. lia.
Qed.

Lemma business_hours_within_elapsed_time_witness :
  exists (h : Q) (m : Z),
    calculate_business_hours friday_1700 next_monday_0900 = Ok h /\
    (h == m # 3600000000)%Q /\
    0 <= m <= sub next_monday_0900 friday_1700 /\
    (0 <= h <= sub next_monday_0900 friday_1700 # 3600000000)%Q.
Proof.
  apply (business_hours_within_elapsed_time friday_1700 next_monday_0900).
  - apply valid_validb. reflexivity.
  - apply valid_validb. reflexivity.
  - reflexivity.
Defined.

(** ** More on the classifier and the approvals probe *)

Section MoreClassifierFacts.

Local Open Scope string_scope.

Lemma occurs_suffix_of_needle (u p s : string) :
  occurs (u ++ p) s -> occurs p s.
Proof.
  intros (pre & post & ->). exists (pre ++ u), post.
  now rewrite !append_assoc.
Qed.

(** The test for "unapproved this merge request" never decides: a text that
    contains it contains "approved this merge request". *)
Lemma unapproved_contains_approved (s : string) :
  str_in "unapproved this merge request" s = true ->
  str_in "approved this merge request" s = true.
Proof.
  rewrite !str_in_spec. apply (occurs_suffix_of_needle "un").
Qed.

Lemma is_review_activity_spec (n : GitLab.note) :
  GitLab.is_review_activity n = true <->
  GitLab.is_system n = false \/
  occurs_ignoring_case "approved this merge request" (GitLab.raw_body n) \/
  occurs_ignoring_case "requested changes" (GitLab.raw_body n) \/
  occurs_ignoring_case "rejected" (GitLab.raw_body n) \/
  occurs_ignoring_case "merged" (GitLab.raw_body n) \/
  occurs_ignoring_case "closed" (GitLab.raw_body n).
Proof.
  unfold GitLab.is_review_activity, GitLab.lowered_body.
  rewrite <- !str_in_lower, !orb_true_iff, negb_true_iff.
  pose proof (unapproved_contains_approved (lower (GitLab.raw_body n))).
  tauto.
Qed.

End MoreClassifierFacts.

(** X4: a note is a candidate exactly when it is not a system note or its
    body contains, case ignored, one of "approved this merge request",
    "requested changes", "rejected", "merged", "closed", and its body
    contains neither "requested review" nor "removed review request".  The
    test for "unapproved this merge request" adds nothing, since such a
    body contains "approved this merge request". *)
Theorem candidate_characterisation (n : GitLab.note) :
  GitLab.is_candidate n = true <->
  (GitLab.is_system n = false \/
   occurs_ignoring_case "approved this merge request" (GitLab.raw_body n) \/
   occurs_ignoring_case "requested changes" (GitLab.raw_body n) \/
   occurs_ignoring_case "rejected" (GitLab.raw_body n) \/
   occurs_ignoring_case "merged" (GitLab.raw_body n) \/
   occurs_ignoring_case "closed" (GitLab.raw_body n)) /\
  ~ occurs_ignoring_case "requested review" (GitLab.raw_body n) /\
  ~ occurs_ignoring_case "removed review request" (GitLab.raw_body n).
Proof.
  unfold GitLab.is_candidate.
  rewrite andb_true_iff, negb_true_iff, is_review_activity_spec.
  pose proof (is_review_request_spec n) as Hr.
  destruct (GitLab.is_review_request n).
  - split; [intros [_ Hf]; discriminate | tauto].
  - assert (Hno : ~ (occurs_ignoring_case "requested review"
                       (GitLab.raw_body n) \/
                     occurs_ignoring_case "removed review request"
                       (GitLab.raw_body n))).
    { intros Hx. apply Hr in Hx. discriminate. }
    tauto.
Qed.

Section ClassifyAll.

Import GitLab.

Lemma classify_notes_parsed (notes : list note) :
  forall acc : list activity,
    classify_notes notes acc =
    (rows <- parsed_times notes ;; Ok (acc ++ candidate_events rows)).
Proof.
  induction notes as [|n rest IH]; intros acc; simpl.
  - unfold candidate_events. simpl. now rewrite app_nil_r.
  - unfold classify_note.
    destruct (note_created_at n) as [t|e]; simpl; [|reflexivity].
    rewrite IH. destruct (parsed_times rest) as [rows|e]; simpl;
      [|reflexivity].
    unfold candidate_events. simpl.
    destruct (is_candidate n); simpl; [|reflexivity].
    now rewrite <- app_assoc.
Qed.

(** The first timestamp that fails to parse stops the loop. *)
Lemma parsed_times_failure (before after : list note) (n : note) (e : exn)
  (rows : list (note * datetime)) :
  parsed_times before = Ok rows -> note_created_at n = Raise e ->
  parsed_times (before ++ n :: after) = Raise e.
Proof.
  revert rows. induction before as [|b before IH]; intros rows; simpl.
  - intros _ ->. reflexivity.
  - destruct (note_created_at b) as [t|e']; simpl; [|discriminate].
    destruct (parsed_times before) as [rows'|e'] eqn:Hp; simpl;
      [|discriminate].
    intros _ Hn. now rewrite (IH rows' eq_refl Hn).
Qed.

End ClassifyAll.

(** X5: when every note's timestamp parses, the loop appends to
    [review_activities] one entry per candidate note, in the order of the
    notes, and nothing else. *)
Theorem candidates_in_note_order (notes : list GitLab.note)
  (rows : list (GitLab.note * datetime)) (acc : list activity)
  (Hparsed : parsed_times notes = Ok rows) :
  map fst rows = notes /\
  GitLab.classify_notes notes acc =
  Ok (acc ++ map (fun row => GitLab.note_activity (fst row) (snd row))
                 (filter (fun row => GitLab.is_candidate (fst row)) rows)).
Proof.
  split.
  - revert rows Hparsed. induction notes as [|n rest IH]; intros rows; simpl.
    + now intros [= <-].
    + destruct (GitLab.note_created_at n) as [t|e]; simpl; [|discriminate].
      destruct (parsed_times rest) as [rows'|e]; simpl; [|discriminate].
      intros [= <-]. simpl. now rewrite (IH rows' eq_refl).
  - rewrite classify_notes_parsed, Hparsed. reflexivity.
Qed.

Lemma candidates_in_note_order_witness :
  GitLab.classify_notes
    [approval_system_note; comment_about_review_request; review_note_tuesday]
    [] =
  Ok [GitLab.note_activity approval_system_note tuesday_0900;
      GitLab.note_activity review_note_tuesday tuesday_0900].
Proof.
  exact (proj2 (candidates_in_note_order
                  [approval_system_note; comment_about_review_request;
                   review_note_tuesday]
                  [(approval_system_note, tuesday_0900);
                   (comment_about_review_request, tuesday_0900);
                   (review_note_tuesday, tuesday_0900)] [] eq_refl)).
Defined.

(** X6: a note whose timestamp does not parse makes the candidate loop
    raise, whether the note is a candidate or not and whatever candidates
    came before it, and [get_first_review_time] then returns [None]. *)
Theorem unparseable_timestamp_discards_review_time
  {num : Type} `{PyNumber num}
  (replies : GitLab.mr_replies) (mr_created_at : datetime)
  (before after : list GitLab.note) (n : GitLab.note) (e : exn)
  (rows : list (GitLab.note * datetime))
  (Hnotes : GitLab.notes_response replies = Ok (before ++ n :: after))
  (Hbefore : parsed_times before = Ok rows)
  (Hbad : GitLab.note_created_at n = Raise e) :
  GitLab.review_candidates replies = Raise e /\
  GitLab.get_first_review_time (num:=num) replies mr_created_at = Ok None.
Proof.
  assert (Hc : GitLab.review_candidates replies = Raise e).
  { unfold GitLab.review_candidates. rewrite Hnotes. cbn [bind].
    rewrite classify_notes_parsed.
    rewrite (parsed_times_failure before after n e rows Hbefore Hbad).
    reflexivity. }
  split; [exact Hc|].
  unfold GitLab.get_first_review_time, GitLab.first_review_time_body.
  rewrite Hc. cbn [bind]. now destruct e.
Qed.

Lemma unparseable_timestamp_discards_review_time_witness :
  GitLab.is_candidate bad_timestamp_note = false /\
  GitLab.get_first_review_time (num:=Q) reviewed_then_bad_timestamp
    monday_0900 = Ok None.
Proof.
  split; [reflexivity|].
  exact (proj2 (unparseable_timestamp_discards_review_time (num:=Q)
                  reviewed_then_bad_timestamp monday_0900
                  [review_note_tuesday] [] bad_timestamp_note ValueError
                  [(review_note_tuesday, tuesday_0900)]
                  eq_refl eq_refl eq_refl)).
Defined.

Section ApprovalFacts.

Import GitLab.

Lemma append_approvals_appends (approvals : list approval) :
  forall acts : list activity,
  exists extra : list activity,
    fst (append_approvals approvals acts) = acts ++ extra /\
    Forall is_approval_event extra.
Proof.
  induction approvals as [|a rest IH]; intros acts; cbn [append_approvals].
  - exists []. simpl. now rewrite app_nil_r.
  - destruct (approval_created_at a) as [[t|e]|].
    + destruct (IH (acts ++ [{| act_type := approval_event;
                                act_time := t;
                                act_body := ("approved by "
                                             ++ approval_name a)%string |}]))
        as (extra & Hx & Hall).
      eexists (_ :: extra). rewrite Hx, <- app_assoc. split; [reflexivity|].
      constructor; [reflexivity | exact Hall].
    + exists []. simpl. now rewrite app_nil_r.
    + apply IH.
Qed.

Lemma append_approvals_all_parse (approvals : list approval) :
  forall acts : list activity,
    all_parse approvals ->
    append_approvals approvals acts = (acts ++ approval_events approvals, None).
Proof.
  induction approvals as [|a rest IH]; intros acts Hall; simpl.
  - now rewrite app_nil_r.
  - inversion Hall as [|? ? Ha Hrest]; subst.
    destruct (approval_created_at a) as [[t|e]|].
    + rewrite IH by assumption. now rewrite <- app_assoc.
    + now destruct (Ha e).
    + now apply IH.
Qed.

Lemma append_approvals_app (l1 l2 : list approval) :
  forall acts : list activity,
    all_parse l1 ->
    append_approvals (l1 ++ l2) acts =
    append_approvals l2 (acts ++ approval_events l1).
Proof.
  induction l1 as [|a rest IH]; intros acts Hall; simpl.
  - now rewrite app_nil_r.
  - inversion Hall as [|? ? Ha Hrest]; subst.
    destruct (approval_created_at a) as [[t|e]|].
    + rewrite IH by assumption. now rewrite <- app_assoc.
    + now destruct (Ha e).
    + now apply IH.
Qed.

End ApprovalFacts.

(** X7: the approvals probe only ever appends approval events to
    [review_activities]; it leaves the list as it is when the request
    fails, the status code is not 200 or the payload cannot be read. *)
Theorem approvals_probe_only_appends
  (response : result GitLab.approvals_reply) (acts : list activity) :
  (exists extra : list activity,
      GitLab.probe_approvals response acts = acts ++ extra /\
      Forall is_approval_event extra) /\
  (match response with
   | Ok reply =>
     GitLab.status_code reply <> 200%Z \/
     (exists e, GitLab.approved_by reply = Raise e)
   | Raise _ => True
   end -> GitLab.probe_approvals response acts = acts).
Proof.
  split.
  - unfold GitLab.probe_approvals.
    destruct response as [reply|e];
      [|exists []; now rewrite app_nil_r].
    destruct (GitLab.status_code reply =? 200)%Z;
      [|exists []; now rewrite app_nil_r].
    destruct (GitLab.approved_by reply) as [approvals|e];
      [|exists []; now rewrite app_nil_r].
    apply append_approvals_appends.
  - unfold GitLab.probe_approvals.
    destruct response as [reply|e]; [|reflexivity].
    intros [Hcode | [e He]].
    + destruct (Z.eqb_spec (GitLab.status_code reply) 200);
        [contradiction | reflexivity].
    + rewrite He. now destruct (GitLab.status_code reply =? 200)%Z.
Qed.

(** X8: when an approval's timestamp fails to parse, the approvals that
    came before it stay in [review_activities] and the ones after it are
    never read: the [except: pass] drops the exception, not the entries
    already appended. *)
Theorem approvals_before_a_failure_are_kept
  (good rest : list GitLab.approval) (bad : GitLab.approval) (e : exn)
  (acts : list activity)
  (Hgood : all_parse good)
  (Hbad : GitLab.approval_created_at bad = Some (Raise e)) :
  GitLab.append_approvals (good ++ bad :: rest) acts =
  (acts ++ approval_events good, Some e) /\
  GitLab.probe_approvals
    (Ok {| GitLab.status_code := 200;
           GitLab.approved_by := Ok (good ++ bad :: rest) |}) acts =
  acts ++ approval_events good.
Proof.
  assert (Ha : GitLab.append_approvals (good ++ bad :: rest) acts =
               (acts ++ approval_events good, Some e)).
  { rewrite append_approvals_app by assumption. simpl. now rewrite Hbad. }
  split; [exact Ha|].
  unfold GitLab.probe_approvals. simpl. now rewrite Ha.
Qed.

Lemma approvals_before_a_failure_are_kept_witness :
  GitLab.probe_approvals
    (Ok {| GitLab.status_code := 200;
           GitLab.approved_by :=
             Ok [approval_by_ann; approval_unparseable; approval_by_cy] |})
    [] =
  approval_events [approval_by_ann].
Proof.
  refine (proj2 (approvals_before_a_failure_are_kept
                   [approval_by_ann] [approval_by_cy] approval_unparseable
                   ValueError [] _ eq_refl)).
  constructor; [|constructor]. intros e. discriminate.
Defined.

(** X9: appending candidates to the list never makes the selected instant
    later, and never makes it [None]. *)
Theorem more_candidates_never_later (l extra : list activity) :
  match earliest_review_time l, earliest_review_time (l ++ extra) with
  | Some t, Some t' => Datetime.ltb t t' = false
  | Some _, None => False
  | None, _ => True
  end.
Proof.
  pose proof (earliest_review_time_spec l) as Hl.
  pose proof (earliest_review_time_spec (l ++ extra)) as Hx.
  destruct (earliest_review_time l) as [t|]; [|exact I].
  destruct Hl as [Hin _]. apply in_map_iff in Hin.
  destruct Hin as (a & <- & Ha).
  destruct (earliest_review_time (l ++ extra)) as [t'|].
  - destruct Hx as [_ Hall]. rewrite Forall_forall in Hall.
    apply Hall. apply in_or_app. now left.
  - destruct l; [contradiction | discriminate].
Qed.

(** ** More on the sort *)

Lemma compare_eq (a b : datetime) : Datetime.compare a b = Eq -> a = b.
Proof.
  intros Hc. apply ltb_total; unfold Datetime.ltb.
  - now rewrite Hc.
  - unfold Datetime.compare in *.
    cmp_cases; try discriminate; try reflexivity; lia.
Qed.

Lemma insert_by_time_at_time (t : datetime) (a : activity)
  (l : list activity) :
  at_time t (insert_by_time a l) = at_time t (a :: l).
Proof.
  induction l as [|b l IH]; [reflexivity|].
  cbn [insert_by_time].
  destruct (Datetime.ltb (act_time b) (act_time a)) eqn:Hba; [|reflexivity].
  unfold at_time in *. cbn [filter] in *. rewrite IH.
  destruct (Datetime.compare (act_time b) t) eqn:Hb; try reflexivity.
  destruct (Datetime.compare (act_time a) t) eqn:Ha; try reflexivity.
  apply compare_eq in Ha, Hb. rewrite Ha, Hb, ltb_irrefl in Hba.
  discriminate.
Qed.

(** X10: [review_activities.sort(key=...)] rearranges the list into
    non-decreasing time order and keeps events with the same timestamp in
    their original relative order. *)
Theorem sort_by_time_is_a_stable_sort (l : list activity) :
  Permutation l (sort_by_time l) /\
  Sorted time_le (sort_by_time l) /\
  (forall t : datetime, at_time t (sort_by_time l) = at_time t l).
Proof.
  split; [apply sort_by_time_perm|]. split; [apply sort_by_time_sorted|].
  intros t. induction l as [|a l IH]; [reflexivity|].
  cbn [sort_by_time]. rewrite insert_by_time_at_time.
  unfold at_time in *. cbn [filter]. now rewrite IH.
Qed.

(** ** More on the GitHub fetch *)

(** X11: on the GitHub script, when the first review's ['submitted_at']
    does not parse, [get_first_review_time] returns [None] whatever the
    review comments are. *)
Theorem github_unparseable_first_review_discards_comments
  {num : Type} `{PyNumber num}
  (replies : GitHub.pr_replies) (pr_created_at : datetime)
  (r : GitHub.review) (rs : list GitHub.review) (e : exn)
  (Hreviews : GitHub.reviews_response replies = Ok (r :: rs))
  (Hbad : GitHub.review_submitted_at r = Raise e) :
  (exists e', GitHub.selected_instant replies = Raise e') /\
  GitHub.get_first_review_time (num:=num) replies pr_created_at = Ok None.
Proof.
  assert (Hsel : exists e', GitHub.selected_instant replies = Raise e').
  { unfold GitHub.selected_instant.
    destruct (GitHub.comments_response replies) as [cs|e1]; simpl; eauto.
    destruct (GitHub.first_comment_time cs) as [t|e2]; simpl; eauto.
    rewrite Hreviews. simpl. rewrite Hbad. simpl. eauto. }
  split; [exact Hsel|]. destruct Hsel as [e' Hsel].
  apply (github_review_time_of_failure replies pr_created_at e').
  unfold GitHub.first_review_time_body. now rewrite Hsel.
Qed.

Lemma github_unparseable_first_review_discards_comments_witness :
  GitHub.get_first_review_time (num:=Q) pending_first_review monday_0900
  = Ok None.
Proof.
  exact (proj2 (github_unparseable_first_review_discards_comments (num:=Q)
                  pending_first_review monday_0900
                  {| GitHub.review_submitted_at := Raise ValueError |} []
                  ValueError eq_refl eq_refl)).
Defined.

(** ** More on the aggregation *)

Section SubsetFacts.

Context {num : Type} `{PyNumber num}.

Lemma record_all_spec (rows : list (request * (Z * option num))) :
  forall acc : activity_lists,
    with_activity (record_all rows acc) =
    (with_activity acc ++ map fst (filter is_active rows))%list /\
    activity_comment_counts (record_all rows acc) =
    (activity_comment_counts acc
     ++ map (fun row => fst (snd row)) (filter is_active rows))%list /\
    activity_review_times (record_all rows acc) =
    (activity_review_times acc
     ++ map (fun row => snd (snd row)) (filter is_active rows))%list.
Proof.
  induction rows as [|row rows IH]; intros acc.
  - simpl. now rewrite !app_nil_r.
  - unfold record_all in *. cbn [fold_left filter].
    destruct (IH (record_activity acc (fst row) (fst (snd row))
                    (snd (snd row)))) as (H1 & H2 & H3).
    rewrite H1, H2, H3. unfold record_activity, is_active.
    destruct ((fst (snd row) >? 0) || is_not_None (snd (snd row)));
      cbn [with_activity activity_comment_counts activity_review_times map];
      rewrite <- ?app_assoc; auto.
Qed.

Lemma results_raise {A : Type} (l : list (result A)) (e : exn) :
  results l = Raise e -> In (Raise e) l.
Proof.
  induction l as [|w l IH]; simpl; [discriminate|].
  destruct w as [r|e']; simpl.
  - destruct (results l) as [rs|e'']; simpl; [discriminate|].
    intros [= ->]. right. now apply IH.
  - intros [= ->]. now left.
Qed.

End SubsetFacts.

(** X12: with as many counts and review times as requests, the loop of
    [main] does not raise and its three lists are the requests, counts and
    review times of exactly the rows with [count > 0] or a review time that
    is not [None], in their original order. *)
Theorem activity_subset_is_the_filtered_rows {num : Type} `{PyNumber num}
  (requests : list request) (counts : list Z) (times : list (option num))
  (Hc : List.length counts = List.length requests)
  (Ht : List.length times = List.length requests) :
  let rows := filter is_active (combine requests (combine counts times)) in
  exists lists : activity_lists,
    activity_subset requests counts times = Ok lists /\
    with_activity lists = map fst rows /\
    activity_comment_counts lists = map (fun row => fst (snd row)) rows /\
    activity_review_times lists = map (fun row => snd (snd row)) rows /\
    (List.length (with_activity lists) <= List.length requests)%nat.
Proof.
  intros rows. rewrite activity_subset_in_step by assumption.
  eexists. split; [reflexivity|].
  destruct (record_all_spec (combine requests (combine counts times))
              no_activity) as (H1 & H2 & H3).
  rewrite H1, H2, H3. simpl. repeat split.
  rewrite length_map. unfold rows.
  etransitivity; [apply filter_length_le|].
  rewrite length_combine. lia.
Qed.

Lemma activity_subset_is_the_filtered_rows_witness :
  exists lists : activity_lists,
    activity_subset (num:=Q) three_requests counts_0_5_0 times_none_2_3
    = Ok lists /\
    with_activity lists = [request_1; request_2].
Proof.
  destruct (activity_subset_is_the_filtered_rows (num:=Q)
              three_requests counts_0_5_0 times_none_2_3 eq_refl eq_refl)
    as (lists & Hs & Hw & _).
  exists lists. split; [exact Hs | exact Hw].
Defined.

(** X13: [main] of either script can only fail after the listing call
    with an exception that left a comment-count worker, and that exception
    is outside the [RequestException] family. *)
Theorem main_fails_only_through_a_count_worker {num : Type} `{PyNumber num}
  (e : exn) :
  (forall listing,
      gitlab_main (num:=num) listing = Raise e ->
      is_RequestException e = false /\
      exists row, In row listing /\ fst (snd row) = Raise e) /\
  (forall listing,
      github_main (num:=num) listing = Raise e ->
      is_RequestException e = false /\
      exists row, In row listing /\ fst (snd row) = Raise e).
Proof.
  split; intros listing; unfold gitlab_main, github_main, main_after_listing;
    (destruct listing as [|row0 rest]; [discriminate|]);
    remember (row0 :: rest) as listing eqn:Hl; clear Hl row0 rest;
    unfold summarize.
  - destruct (results (map (fun row =>
                GitLab.get_review_comment_count (fst (snd row))) listing))
      as [cs|e'] eqn:Hcs; cbn [bind].
    + destruct (results_all_ok
                  (map (fun row => GitLab.get_first_review_time (num:=num)
                                     (snd (snd row)) (created_at (fst row)))
                       listing)) as [ts Hts].
      { apply Forall_map, Forall_forall. intros row _.
        apply gitlab_review_time_returns. }
      rewrite Hts. cbn [bind].
      apply results_length in Hcs, Hts. rewrite length_map in Hcs, Hts.
      rewrite activity_subset_in_step by (rewrite ?length_map; lia).
      discriminate.
    + intros [= ->]. apply results_raise in Hcs. apply in_map_iff in Hcs.
      destruct Hcs as (row & Hrow & Hin).
      unfold GitLab.get_review_comment_count in Hrow.
      destruct (fst (snd row)) as [notes|e'] eqn:Hw; simpl in Hrow;
        [discriminate|].
      destruct (is_HTTPError e') eqn:Hh; [discriminate|].
      destruct (is_RequestException e') eqn:Hr; [discriminate|].
      injection Hrow as ->. split; [exact Hr|]. now exists row.
  - destruct (results (map (fun row =>
                GitHub.get_review_comment_count (fst (snd row))) listing))
      as [cs|e'] eqn:Hcs; cbn [bind].
    + destruct (results_all_ok
                  (map (fun row => GitHub.get_first_review_time (num:=num)
                                     (snd (snd row)) (created_at (fst row)))
                       listing)) as [ts Hts].
      { apply Forall_map, Forall_forall. intros row _.
        apply github_review_time_returns. }
      rewrite Hts. cbn [bind].
      apply results_length in Hcs, Hts. rewrite length_map in Hcs, Hts.
      rewrite activity_subset_in_step by (rewrite ?length_map; lia).
      discriminate.
    + intros [= ->]. apply results_raise in Hcs. apply in_map_iff in Hcs.
      destruct Hcs as (row & Hrow & Hin).
      unfold GitHub.get_review_comment_count in Hrow.
      destruct (fst (snd row)) as [notes|e'] eqn:Hw; simpl in Hrow;
        [discriminate|].
      destruct (is_HTTPError e') eqn:Hh; [discriminate|].
      destruct (is_RequestException e') eqn:Hr; [discriminate|].
      injection Hrow as ->. split; [exact Hr|]. now exists row.
Qed.

Lemma fold_left_max_spec (l : list Z) :
  forall c : Z,
    c <= fold_left Z.max l c /\
    Forall (fun x => x <= fold_left Z.max l c) l.
Proof.
  induction l as [|x l IH]; intros c; simpl.
  - split; [lia | constructor].
  - destruct (IH (Z.max c x)) as [Hc Hall]. split; [lia|].
    constructor; [lia | exact Hall].
Qed.

Lemma fold_left_min_spec (l : list Z) :
  forall c : Z,
    fold_left Z.min l c <= c /\
    Forall (fun x => fold_left Z.min l c <= x) l.
Proof.
  induction l as [|x l IH]; intros c; simpl.
  - split; [lia | constructor].
  - destruct (IH (Z.min c x)) as [Hc Hall]. split; [lia|].
    constructor; [lia | exact Hall].
Qed.

Lemma fold_left_add_bounds (lo hi : Z) (l : list Z) :
  Forall (fun x => lo <= x <= hi) l ->
  forall s : Z,
    s + lo * Z.of_nat (List.length l) <= fold_left Z.add l s
    <= s + hi * Z.of_nat (List.length l).
Proof.
  induction 1 as [|x l Hx _ IH]; intros s; simpl fold_left.
  - simpl. lia.
  - specialize (IH (s + x)). rewrite length_cons, Nat2Z.inj_succ. lia.
Qed.

(** X14: the reported maximum and minimum are comment counts of the
    activity subset, every count lies between them, and so does the
    reported mean (in exact arithmetic). *)
Theorem mean_comments_between_min_and_max (a : activity_lists)
  (mean : Q) (max_count min_count : Z)
  (Hstats : comment_stats (make_report a) = Some (mean, max_count, min_count)) :
  In max_count (activity_comment_counts a) /\
  In min_count (activity_comment_counts a) /\
  Forall (fun c => min_count <= c <= max_count) (activity_comment_counts a) /\
  (inject_Z min_count <= mean <= inject_Z max_count)%Q.
Proof.
  unfold make_report in Hstats. cbn [comment_stats] in Hstats.
  destruct (activity_comment_counts a) as [|c cs]; [discriminate|].
  injection Hstats as <- <- <-.
  destruct (fold_left_max_spec cs c) as [Hmc Hmax].
  destruct (fold_left_min_spec cs c) as [Hnc Hmin].
  assert (Hall : Forall (fun x => fold_left Z.min cs c <= x
                                  <= fold_left Z.max cs c) (c :: cs)).
  { constructor; [lia|]. rewrite Forall_forall in *. intros x Hx.
    specialize (Hmax x Hx). specialize (Hmin x Hx). lia. }
  assert (Hin_max : In (fold_left Z.max cs c) (c :: cs)).
  { clear. revert c. induction cs as [|x cs IH]; intros c; [now left|].
    cbn [fold_left]. destruct (IH (Z.max c x)) as [Heq | Hin].
    - rewrite <- Heq.
      destruct (Z.max_spec c x) as [[_ ->] | [_ ->]];
        [right; now left | now left].
    - right. now right. }
  assert (Hin_min : In (fold_left Z.min cs c) (c :: cs)).
  { clear. revert c. induction cs as [|x cs IH]; intros c; [now left|].
    cbn [fold_left]. destruct (IH (Z.min c x)) as [Heq | Hin].
    - rewrite <- Heq.
      destruct (Z.min_spec c x) as [[_ ->] | [_ ->]];
        [now left | right; now left].
    - right. now right. }
  repeat split; try assumption.
  - unfold mean_comments, sum_int, len. cbn [num_div num_of_int Q_number].
    pose proof (fold_left_add_bounds _ _ _ Hall 0) as Hb.
    apply Qle_shift_div_l.
    + rewrite length_cons, Nat2Z.inj_succ. unfold Qlt; simpl. lia.
    + rewrite <- inject_Z_mult, <- Zle_Qle. lia.
  - unfold mean_comments, sum_int, len. cbn [num_div num_of_int Q_number].
    pose proof (fold_left_add_bounds _ _ _ Hall 0) as Hb.
    apply Qle_shift_div_r.
    + rewrite length_cons, Nat2Z.inj_succ. unfold Qlt; simpl. lia.
    + rewrite <- inject_Z_mult, <- Zle_Qle. lia.
Qed.

Section ReportFacts.

Context {num : Type} `{PyNumber num} {W : Type}.
Variable count_worker : W -> result Z.
Variable time_worker : request -> W -> result (option num).

Lemma valid_review_times_nil (l : list (option num)) :
  valid_review_times l = [] <-> Forall (fun t => t = None) l.
Proof.
  induction l as [|[t|] l IH]; simpl.
  - split; [constructor | reflexivity].
  - split; [discriminate | intros Hf; inversion Hf; discriminate].
  - rewrite IH. split; [now constructor | intros Hf; now inversion Hf].
Qed.

End ReportFacts.

(** X15: in a report the number of requests with activity is between 0
    and the number of listed requests; the comment statistics are replaced
    by the "no comments" line exactly when that number is 0, and then the
    review statistics are replaced too; this happens exactly when every
    request has a count that is not positive and no review time. *)
Theorem report_has_no_statistics_without_activity
  {num : Type} `{PyNumber num} {W : Type}
  (count_worker : W -> result Z)
  (time_worker : request -> W -> result (option num))
  (listing : list (request * W)) (r : report)
  (Hr : summarize count_worker time_worker listing = Ok r) :
  0 <= activity_total r <= len listing /\
  (comment_stats r = None <-> activity_total r = 0) /\
  (activity_total r = 0 -> review_stats r = None) /\
  (activity_total r = 0 <->
   Forall (fun row => (exists c, count_worker (snd row) = Ok c /\ c <= 0) /\
                      time_worker (fst row) (snd row) = Ok None) listing).
Proof.
  unfold summarize in Hr.
  destruct (results (map (fun row => count_worker (snd row)) listing))
    as [cs|e] eqn:Hcs; [|discriminate].
  destruct (results (map (fun row => time_worker (fst row) (snd row)) listing))
    as [ts|e] eqn:Hts; [|discriminate].
  cbn [bind] in Hr.
  pose proof (results_length _ _ Hcs) as Hlc.
  pose proof (results_length _ _ Hts) as Hlt.
  rewrite length_map in Hlc, Hlt.
  destruct (activity_subset_is_the_filtered_rows (map fst listing) cs ts)
    as (lists & Hs & Hw & Hc & Ht & Hlen); rewrite ?length_map; try lia.
  rewrite Hs in Hr. cbn [bind] in Hr. injection Hr as <-.
  rewrite Hw, !length_map in Hlen.
  set (rows := filter is_active (combine (map fst listing) (combine cs ts)))
    in *.
  unfold make_report, len.
  cbn [activity_total comment_stats review_stats].
  rewrite Hw, Hc, Ht, !length_map.
  split; [lia|]. split; [|split].
  - destruct rows as [|row rows']; simpl; [tauto|].
    split; [discriminate | lia].
  - intros H0. destruct rows as [|row rows']; [reflexivity | simpl in H0; lia].
  - assert (Hrows : rows = [] <->
              Forall (fun row => @is_active num row = false)
                (combine (map fst listing) (combine cs ts))).
    { unfold rows. clear.
      induction (combine (map fst listing) (combine cs ts)) as [|x l IH];
        simpl.
      - split; [constructor | reflexivity].
      - destruct (is_active x) eqn:Hx.
        + split; [discriminate | intros Hf; inversion Hf; congruence].
        + rewrite IH. split; [now constructor | intros Hf; now inversion Hf]. }
    assert (Hz : Z.of_nat (List.length rows) = 0 <-> rows = []).
    { destruct rows; simpl; split; try reflexivity; try discriminate; lia. }
    rewrite Hz, Hrows. clear Hz Hrows Hs Hw Hc Ht Hlen rows lists.
    revert cs ts Hcs Hts Hlc Hlt.
    induction listing as [|row listing IH]; intros cs ts Hcs Hts Hlc Hlt.
    + simpl. split; constructor.
    + simpl in Hcs, Hts.
      destruct (count_worker (snd row)) as [c|e] eqn:Hc; [|discriminate].
      destruct (results (map (fun row => count_worker (snd row)) listing))
        as [cs'|e] eqn:Hcs'; [|discriminate].
      destruct (time_worker (fst row) (snd row)) as [t|e] eqn:Ht;
        [|discriminate].
      destruct (results (map (fun row => time_worker (fst row) (snd row))
                           listing)) as [ts'|e] eqn:Hts'; [|discriminate].
      simpl in Hcs, Hts. injection Hcs as <-. injection Hts as <-.
      simpl in Hlc, Hlt. simpl combine.
      specialize (IH cs' ts' eq_refl eq_refl ltac:(lia) ltac:(lia)).
      split.
      * intros Hf. inversion Hf as [|? ? Hact Hrest]; subst.
        constructor; [|now apply IH].
        unfold is_active in Hact. simpl in Hact.
        apply orb_false_iff in Hact. destruct Hact as [Hgt Hn].
        destruct t; [discriminate|]. split; [|exact Ht].
        exists c. split; [exact Hc|].
        destruct (Z.gtb_spec c 0); [discriminate | lia].
      * intros Hf. inversion Hf as [|? ? [(c0 & Hc0 & Hle) Ht0] Hrest]; subst.
        constructor; [|now apply IH].
        rewrite Hc in Hc0. rewrite Ht in Ht0.
        injection Hc0 as ->. injection Ht0 as ->.
        unfold is_active. simpl.
        destruct (Z.gtb_spec c0 0); [lia | reflexivity].
Qed.

Lemma mean_comments_between_min_and_max_witness :
  (inject_Z 0 <= mean_comments [5; 0]%Z <= inject_Z 5)%Q.
Proof.
  exact (proj2 (proj2 (proj2
           (mean_comments_between_min_and_max lists_5_0
              (mean_comments [5; 0]) 5 0 eq_refl)))).
Defined.

Lemma report_has_no_statistics_without_activity_witness :
  exists r : @report Q,
    summarize (fun w => GitLab.get_review_comment_count (fst w))
      (fun mr w => GitLab.get_first_review_time (snd w) (created_at mr))
      [(request_0, (Raise HTTPError, unreachable_notes))] = Ok r /\
    (comment_stats r = None <-> activity_total r = 0).
Proof.
  eexists. split; [reflexivity|].
  exact (proj1 (proj2 (report_has_no_statistics_without_activity
           (fun w => GitLab.get_review_comment_count (fst w))
           (fun mr w => GitLab.get_first_review_time (snd w) (created_at mr))
           [(request_0, (Raise HTTPError, unreachable_notes))]
           _ eq_refl))).
Defined.

(** ** The listing calls *)

Lemma append_items_requests_of (data : list item) :
  forall acc : list request,
    append_items data acc =
    (rs <- requests_of data ;; Ok (acc ++ rs)%list).
Proof.
  induction data as [|it rest IH]; intros acc; simpl.
  - now rewrite app_nil_r.
  - destruct (item_created_at it) as [t|e]; simpl; [|reflexivity].
    rewrite IH. destruct (requests_of rest) as [rs|e]; simpl; [|reflexivity].
    now rewrite <- app_assoc.
Qed.

Lemma requests_of_length (data : list item) (rs : list request) :
  requests_of data = Ok rs -> List.length rs = List.length data.
Proof.
  revert rs. induction data as [|it rest IH]; intros rs; simpl.
  - now intros [= <-].
  - destruct (item_created_at it) as [t|e]; simpl; [|discriminate].
    destruct (requests_of rest) as [rs'|e]; simpl; [|discriminate].
    intros [= <-]. simpl. now rewrite (IH rs').
Qed.

Lemma serves_app (server : Z -> page) (l1 l2 : list (list item)) :
  forall first : Z,
    serves server first (l1 ++ l2) <->
    serves server first l1 /\ serves server (first + len l1) l2.
Proof.
  induction l1 as [|d l1 IH]; intros first.
  - unfold len. simpl. rewrite Z.add_0_r. tauto.
  - cbn [app serves]. rewrite IH. unfold len.
    rewrite length_cons, Nat2Z.inj_succ.
    replace (first + 1 + Z.of_nat (List.length l1))
      with (first + Z.succ (Z.of_nat (List.length l1))) by lia.
    tauto.
Qed.

Lemma requests_of_pages_app (l1 l2 : list (list item)) :
  requests_of_pages (l1 ++ l2) =
  (a <- requests_of_pages l1 ;; b <- requests_of_pages l2 ;; Ok (a ++ b)%list).
Proof.
  induction l1 as [|d l1 IH]; simpl.
  - destruct (requests_of_pages l2); reflexivity.
  - destruct (requests_of d) as [r|e]; simpl; [|reflexivity].
    rewrite IH. destruct (requests_of_pages l1) as [a|e]; simpl;
      [|reflexivity].
    destruct (requests_of_pages l2) as [b|e]; simpl; [|reflexivity].
    now rewrite app_assoc.
Qed.

Lemma gitlab_full_pages (server : Z -> page) (full : list (list item)) :
  forall (first : Z) (acc rs : list request) (fuel : nat),
    serves server first full ->
    Forall (fun d => per_page <= len d) full ->
    requests_of_pages full = Ok rs ->
    gitlab_pages (List.length full + fuel) server first acc =
    gitlab_pages fuel server (first + len full) (acc ++ rs).
Proof.
  induction full as [|d full IH]; intros first acc rs fuel Hs Hfull Hrs.
  - simpl in Hrs. injection Hrs as <-. unfold len. simpl.
    now rewrite Z.add_0_r, app_nil_r.
  - simpl in Hs. destruct Hs as (Hst & Hit & Hs).
    inversion Hfull as [|? ? Hd Hfull']; subst.
    simpl in Hrs.
    destruct (requests_of d) as [r1|e] eqn:Hr1; simpl in Hrs; [|discriminate].
    destruct (requests_of_pages full) as [r2|e] eqn:Hr2; simpl in Hrs;
      [|discriminate].
    injection Hrs as <-.
    cbn [List.length Nat.add gitlab_pages]. rewrite Hst, Hit.
    destruct d as [|it d']; [unfold per_page, len in Hd; simpl in Hd; lia|].
    rewrite append_items_requests_of, Hr1. cbn [bind].
    destruct (Z.ltb_spec (len (it :: d')) per_page); [lia|].
    rewrite (IH (first + 1) (acc ++ r1)%list r2 fuel Hs Hfull' eq_refl).
    unfold len. rewrite length_cons, Nat2Z.inj_succ, <- app_assoc.
    f_equal. lia.
Qed.

(** X16: when the platform answers full pages (at least 100 items each)
    followed by a page with fewer than 100 items, the GitLab listing
    returns the requests of all those pages in order and asks for no
    further page. *)
Theorem gitlab_listing_stops_at_the_first_short_page
  (server : Z -> page) (full : list (list item)) (last : list item)
  (rs : list request) (fuel : nat)
  (Hserves : serves server 1 (full ++ [last]))
  (Hfull : Forall (fun d => per_page <= len d) full)
  (Hshort : len last < per_page)
  (Hparse : requests_of_pages (full ++ [last]) = Ok rs) :
  fetch_merge_requests_in_range (List.length full + S fuel) server
  = Some (Returned rs).
Proof.
  apply serves_app in Hserves. destruct Hserves as [Hs1 (Hst & Hit & _)].
  rewrite requests_of_pages_app in Hparse.
  destruct (requests_of_pages full) as [r1|e] eqn:Hr1; simpl in Hparse;
    [|discriminate].
  destruct (requests_of last) as [r2|e] eqn:Hr2; simpl in Hparse;
    [|discriminate].
  injection Hparse as <-. rewrite app_nil_r.
  unfold fetch_merge_requests_in_range.
  rewrite (gitlab_full_pages server full 1 [] r1 (S fuel) Hs1 Hfull Hr1).
  cbn [gitlab_pages]. rewrite Hst, Hit.
  destruct last as [|it last'];
    [simpl in Hr2; injection Hr2 as <-; now rewrite app_nil_r|].
  rewrite append_items_requests_of, Hr2. cbn [bind].
  destruct (Z.ltb_spec (len (it :: last')) per_page); [reflexivity | lia].
Qed.

(** X17: when a page request fails after full pages were read, the GitLab
    listing calls [sys.exit(1)] if the exception is of the
    [RequestException] family and lets it through otherwise; the requests
    read so far are not returned. *)
Theorem gitlab_listing_error_exits
  (server : Z -> page) (full : list (list item)) (rs : list request)
  (e : exn) (fuel : nat)
  (Hserves : serves server 1 full)
  (Hfull : Forall (fun d => per_page <= len d) full)
  (Hparse : requests_of_pages full = Ok rs)
  (Hfail : page_status (server (1 + len full)) = Raise e) :
  fetch_merge_requests_in_range (List.length full + S fuel) server =
  Some (if is_RequestException e then Exited 1 else Raised e).
Proof.
  unfold fetch_merge_requests_in_range.
  rewrite (gitlab_full_pages server full 1 [] rs (S fuel) Hserves Hfull Hparse).
  cbn [gitlab_pages]. rewrite Hfail. unfold listing_failure.
  now destruct e.
Qed.

(** X18: against a platform that answers a full page to every request, the
    GitLab listing loop is still running after any number of pages: it has
    no page limit of its own. *)
Theorem gitlab_listing_has_no_page_limit
  (server : Z -> page) (data : list item) (rs : list request)
  (Hall : forall n : Z, 1 <= n ->
            page_status (server n) = Ok tt /\ page_items (server n) = Ok data)
  (Hfull : per_page <= len data)
  (Hparse : requests_of data = Ok rs) :
  forall fuel : nat, fetch_merge_requests_in_range fuel server = None.
Proof.
  unfold fetch_merge_requests_in_range. intros fuel.
  assert (Hgen : forall (n : Z) (acc : list request),
             1 <= n -> gitlab_pages fuel server n acc = None).
  { induction fuel as [|fuel IH]; intros n acc Hn; [reflexivity|].
    cbn [gitlab_pages]. destruct (Hall n Hn) as [-> ->].
    destruct data as [|it d'];
      [unfold per_page, len in Hfull; simpl in Hfull; lia|].
    rewrite append_items_requests_of, Hparse. cbn [bind].
    destruct (Z.ltb_spec (len (it :: d')) per_page); [lia|].
    apply IH. lia. }
  apply Hgen. lia.
Qed.

Lemma github_linked_pages (server : Z -> page) (pages : list (list item)) :
  forall (first : Z) (acc rs : list request) (fuel : nat),
    serves server first pages ->
    linked server first (List.length pages) ->
    Forall (fun d => d <> []) pages ->
    requests_of_pages pages = Ok rs ->
    github_pages (List.length pages + fuel) server first acc =
    github_pages fuel server (first + len pages) (acc ++ rs).
Proof.
  induction pages as [|d pages IH]; intros first acc rs fuel Hs Hl Hne Hrs.
  - simpl in Hrs. injection Hrs as <-. unfold len. simpl.
    now rewrite Z.add_0_r, app_nil_r.
  - simpl in Hs. destruct Hs as (Hst & Hit & Hs).
    inversion Hne as [|? ? Hd Hne']; subst.
    simpl in Hrs.
    destruct (requests_of d) as [r1|e] eqn:Hr1; simpl in Hrs; [|discriminate].
    destruct (requests_of_pages pages) as [r2|e] eqn:Hr2; simpl in Hrs;
      [|discriminate].
    injection Hrs as <-.
    cbn [List.length Nat.add github_pages]. rewrite Hst, Hit.
    destruct d as [|it d']; [contradiction|].
    rewrite append_items_requests_of, Hr1. cbn [bind].
    assert (Hnext : has_next_link (server first) = true).
    { specialize (Hl 0). rewrite Z.add_0_r in Hl. apply Hl.
      rewrite length_cons. lia. }
    rewrite Hnext.
    rewrite (IH (first + 1) (acc ++ r1)%list r2 fuel Hs); try assumption.
    + unfold len. rewrite length_cons, Nat2Z.inj_succ, <- app_assoc.
      f_equal. lia.
    + intros i Hi. replace (first + 1 + i) with (first + (i + 1)) by lia.
      apply Hl. rewrite length_cons. lia.
    + reflexivity.
Qed.

(** X19: the GitHub listing reads pages as long as they have items and a
    'next' link, and returns the requests of all pages read when it meets a
    page without items or without that link. *)
Theorem github_listing_stops_without_next_link_or_items
  (server : Z -> page) (pages : list (list item)) (last : list item)
  (rs : list request) (fuel : nat)
  (Hserves : serves server 1 (pages ++ [last]))
  (Hlinked : linked server 1 (List.length pages))
  (Hitems : Forall (fun d => d <> []) pages)
  (Hstop : last = [] \/ has_next_link (server (1 + len pages)) = false)
  (Hparse : requests_of_pages (pages ++ [last]) = Ok rs) :
  fetch_pull_requests_in_range (List.length pages + S fuel) server
  = Some (Returned rs).
Proof.
  apply serves_app in Hserves. destruct Hserves as [Hs1 (Hst & Hit & _)].
  rewrite requests_of_pages_app in Hparse.
  destruct (requests_of_pages pages) as [r1|e] eqn:Hr1; simpl in Hparse;
    [|discriminate].
  destruct (requests_of last) as [r2|e] eqn:Hr2; simpl in Hparse;
    [|discriminate].
  injection Hparse as <-. rewrite app_nil_r.
  unfold fetch_pull_requests_in_range.
  rewrite (github_linked_pages server pages 1 [] r1 (S fuel)
             Hs1 Hlinked Hitems Hr1).
  cbn [github_pages]. rewrite Hst, Hit.
  destruct last as [|it last'];
    [simpl in Hr2; injection Hr2 as <-; now rewrite app_nil_r|].
  rewrite append_items_requests_of, Hr2. cbn [bind].
  destruct Hstop as [Hnil | ->]; [discriminate | reflexivity].
Qed.

Lemma gitlab_listing_stops_at_the_first_short_page_witness :
  fetch_merge_requests_in_range 3 full_then_short =
  Some (Returned (repeat (request_of_listed 7) 100 ++ [request_of_listed 8])).
Proof.
  refine (gitlab_listing_stops_at_the_first_short_page full_then_short
            [full_page] [listed 8]
            (repeat (request_of_listed 7) 100 ++ [request_of_listed 8])
            1 _ _ _ eq_refl).
  - cbn. repeat split.
  - constructor; [|constructor]. vm_compute. discriminate.
  - reflexivity.
Defined.

Lemma gitlab_listing_error_exits_witness :
  fetch_merge_requests_in_range 2 full_then_refused = Some (Exited 1).
Proof.
  refine (gitlab_listing_error_exits full_then_refused [full_page]
            (repeat (request_of_listed 7) 100) HTTPError 0 _ _ eq_refl eq_refl).
  - cbn. repeat split.
  - constructor; [|constructor]. vm_compute. discriminate.
Defined.

Lemma gitlab_listing_has_no_page_limit_witness :
  fetch_merge_requests_in_range 25 always_full = None.
Proof.
  refine (gitlab_listing_has_no_page_limit always_full full_page
            (repeat (request_of_listed 7) 100) _ _ eq_refl 25%nat).
  - intros n _. split; reflexivity.
  - vm_compute. discriminate.
Defined.

Lemma github_listing_stops_without_next_link_or_items_witness :
  fetch_pull_requests_in_range 3 full_then_short =
  Some (Returned (repeat (request_of_listed 7) 100 ++ [request_of_listed 8])).
Proof.
  refine (github_listing_stops_without_next_link_or_items full_then_short
            [full_page] [listed 8]
            (repeat (request_of_listed 7) 100 ++ [request_of_listed 8])
            1 _ _ _ _ eq_refl).
  - cbn. repeat split.
  - intros i Hi. assert (i = 0) as -> by (simpl in Hi; lia). reflexivity.
  - constructor; [discriminate | constructor].
  - right. reflexivity.
Defined.

(** ** [parse_gitlab_datetime] *)

Section ParseFacts.

Local Open Scope string_scope.










End ParseFacts.




(** ** The URL helpers *)

Section UrlFacts.

Local Open Scope string_scope.

Variable c : ascii.

Lemma lstrip_spec (s : string) :
  exists lead, s = lead ++ lstrip c s /\ all_char c lead = true /\
               startswith (String c "") (lstrip c s) = false.
Proof.
  induction s as [|a s IH].
  - exists "". auto.
  - cbn [lstrip]. destruct (Ascii.eqb a c) eqn:Ha.
    + destruct IH as (lead & Hs & Hl & Hh). exists (String a lead).
      simpl. rewrite Ha, Hl, <- Hs. auto.
    + exists "". repeat split. cbn [startswith].
      rewrite Ascii.eqb_sym, Ha. reflexivity.
Qed.

Lemma rstrip_spec (s : string) :
  exists trail, s = rstrip c s ++ trail /\ all_char c trail = true.
Proof.
  induction s as [|a s IH].
  - exists "". auto.
  - destruct IH as (trail & Hs & Ht). cbn [rstrip].
    destruct (rstrip c s) as [|b r] eqn:Hr.
    + simpl in Hs. subst s. destruct (Ascii.eqb a c) eqn:Ha.
      * exists (String a trail). simpl. rewrite Ha, Ht. auto.
      * exists trail. auto.
    + exists trail. split; [|exact Ht]. rewrite Hs at 1. reflexivity.
Qed.

Lemma rstrip_nil_iff (s : string) : rstrip c s = "" <-> all_char c s = true.
Proof.
  induction s as [|a s IH]; [simpl; tauto|].
  cbn [rstrip all_char]. destruct (rstrip c s) as [|b r].
  - destruct (Ascii.eqb a c); simpl.
    + tauto.
    + split; discriminate.
  - split; [discriminate|]. rewrite andb_true_iff. intros [_ Hall].
    apply IH in Hall. discriminate.
Qed.

(** [rstrip] keeps the first character of what it leaves. *)
Lemma rstrip_head (s : string) :
  startswith (String c "") s = false ->
  startswith (String c "") (rstrip c s) = false.
Proof.
  destruct s as [|a s]; [reflexivity|]. cbn [rstrip startswith].
  intros Ha. destruct (rstrip c s).
  - destruct (Ascii.eqb a c); [reflexivity|]. cbn [startswith]. exact Ha.
  - cbn [startswith]. exact Ha.
Qed.

Lemma rstrip_idem (s : string) : rstrip c (rstrip c s) = rstrip c s.
Proof.
  induction s as [|a s IH]; [reflexivity|].
  cbn [rstrip]. destruct (rstrip c s) as [|b r] eqn:Hr.
  - destruct (Ascii.eqb a c) eqn:Ha; [reflexivity|].
    cbn [rstrip]. now rewrite Ha.
  - cbn [rstrip] in *. cbn [rstrip]. rewrite IH. reflexivity.
Qed.

Lemma lstrip_id (s : string) :
  startswith (String c "") s = false -> lstrip c s = s.
Proof.
  destruct s as [|a s]; [reflexivity|]. cbn [lstrip startswith].
  rewrite Ascii.eqb_sym. destruct (Ascii.eqb a c); [discriminate|reflexivity].
Qed.

Lemma lstrip_all_char (lead s : string) :
  all_char c lead = true -> lstrip c (lead ++ s) = lstrip c s.
Proof.
  induction lead as [|a lead IH]; [reflexivity|].
  cbn [all_char append lstrip]. rewrite andb_true_iff. intros [-> Hl].
  now apply IH.
Qed.

Lemma rstrip_all_char (s trail : string) :
  all_char c trail = true -> rstrip c (s ++ trail) = rstrip c s.
Proof.
  intros Ht. induction s as [|a s IH].
  - simpl. now apply rstrip_nil_iff.
  - cbn [append rstrip]. now rewrite IH.
Qed.

(** The strip of a text: what it leaves, and what it removes. *)
Lemma strip_spec (s : string) :
  exists lead trail,
    s = lead ++ strip c s ++ trail /\
    all_char c lead = true /\ all_char c trail = true /\
    startswith (String c "") (strip c s) = false /\
    rstrip c (strip c s) = strip c s.
Proof.
  unfold strip.
  destruct (lstrip_spec s) as (lead & Hs & Hl & Hh).
  destruct (rstrip_spec (lstrip c s)) as (trail & Hr & Ht).
  exists lead, trail. repeat split; try assumption.
  - now rewrite <- Hr.
  - now apply rstrip_head.
  - apply rstrip_idem.
Qed.

Lemma split_not_nil (s : string) : split c s <> [].
Proof.
  induction s as [|a s IH]; [discriminate|].
  cbn [split]. destruct (Ascii.eqb a c); [discriminate|].
  destruct (split c s); [contradiction | discriminate].
Qed.

Lemma split_free (s : string) : free_of c s = true -> split c s = [s].
Proof.
  induction s as [|a s IH]; [reflexivity|].
  cbn [free_of split]. rewrite andb_true_iff, negb_true_iff.
  intros [-> Hs]. now rewrite IH.
Qed.

Lemma split_app (s t : string) :
  free_of c s = true -> split c (s ++ String c t) = s :: split c t.
Proof.
  induction s as [|a s IH].
  - intros _. cbn [append split]. now rewrite Ascii.eqb_refl.
  - cbn [free_of append split]. rewrite andb_true_iff, negb_true_iff.
    intros [-> Hs]. now rewrite IH.
Qed.

(** The pieces of a split hold no separator, and joined by separators they
    give the text back. *)
Lemma split_first (s : string) :
  exists first rest,
    split c s = first :: rest /\ free_of c first = true /\
    (rest = [] /\ s = first \/
     exists t, s = first ++ String c t /\ rest = split c t).
Proof.
  induction s as [|a s IH].
  - exists "", []. auto.
  - destruct IH as (first & rest & Hsp & Hf & Hcase).
    cbn [split]. destruct (Ascii.eqb a c) eqn:Ha.
    + apply Ascii.eqb_eq in Ha. subst a.
      exists "", (split c s). repeat split. right. now exists s.
    + rewrite Hsp. exists (String a first), rest.
      split; [reflexivity|]. split; [simpl; now rewrite Ha, Hf|].
      destruct Hcase as [[-> ->] | (t & -> & ->)]; [now left|].
      right. now exists t.
Qed.

Lemma free_of_str_in (s : string) :
  free_of c s = true <-> str_in (String c "") s = false.
Proof.
  induction s as [|a s IH]; [simpl; tauto|].
  cbn [free_of str_in startswith]. rewrite andb_true_r.
  rewrite andb_true_iff, negb_true_iff, orb_false_iff, IH.
  now rewrite (Ascii.eqb_sym a c).
Qed.

End UrlFacts.

Section MoreUrlFacts.

Local Open Scope string_scope.

Variable c : ascii.

Lemma rstrip_free (r : string) : free_of c r = true -> rstrip c r = r.
Proof.
  induction r as [|a r IH]; [reflexivity|].
  cbn [free_of rstrip]. rewrite andb_true_iff, negb_true_iff.
  intros [Ha Hr]. rewrite (IH Hr). destruct r; [now rewrite Ha | reflexivity].
Qed.

Lemma rstrip_app_free (s r : string) :
  free_of c r = true -> r <> "" -> rstrip c (s ++ r) = s ++ r.
Proof.
  intros Hr Hne. induction s as [|a s IH].
  - now apply rstrip_free.
  - cbn [append rstrip]. rewrite IH.
    destruct (s ++ r) eqn:Hsr; [|reflexivity].
    destruct s; [simpl in Hsr; contradiction | discriminate].
Qed.

Lemma free_not_headed (s : string) :
  free_of c s = true -> startswith (String c "") s = false.
Proof.
  destruct s as [|a s]; [reflexivity|].
  cbn [free_of startswith]. rewrite andb_true_iff, negb_true_iff.
  intros [Ha _]. now rewrite Ascii.eqb_sym, Ha.
Qed.

Lemma startswith_app_nonempty (s t : string) :
  s <> "" -> startswith (String c "") s = false ->
  startswith (String c "") (s ++ t) = false.
Proof.
  destruct s as [|a s]; [contradiction|]. intros _ Hs. exact Hs.
Qed.

Lemma all_char_lstrip_nil (s : string) :
  all_char c s = true <-> lstrip c s = "".
Proof.
  induction s as [|a s IH]; [simpl; tauto|].
  cbn [all_char lstrip]. destruct (Ascii.eqb a c); simpl; [exact IH|].
  split; discriminate.
Qed.

Lemma strip_nil_iff (s : string) : strip c s = "" <-> all_char c s = true.
Proof.
  unfold strip. rewrite rstrip_nil_iff.
  destruct (lstrip_spec c s) as (lead & Hs & Hl & Hh).
  split.
  - intros Hall. destruct (lstrip c s) as [|a r] eqn:Hr.
    + now apply all_char_lstrip_nil.
    + cbn [all_char startswith] in *. apply andb_true_iff in Hall.
      destruct Hall as [Ha _]. rewrite Ascii.eqb_sym, Ha in Hh. discriminate.
  - intros Hall. apply all_char_lstrip_nil in Hall. now rewrite Hall.
Qed.

End MoreUrlFacts.

(** X22: [extract_repo_info] exits with code 1 exactly when the path,
    stripped of slashes at both ends, contains no slash; otherwise it
    returns the first two segments of the path, which contain no slash, the
    owner being non-empty (the repository name can be empty). *)
Theorem repo_info_needs_two_segments (path : string) :
  (extract_repo_info path = Exited 1 <->
   free_of "/" (strip "/" path) = true) /\
  (forall owner repo : string,
      extract_repo_info path = Returned (owner, repo) ->
      free_of "/" owner = true /\ free_of "/" repo = true /\
      owner <> ""%string /\
      exists lead rest : string,
        path = (lead ++ owner ++ "/" ++ repo ++ rest)%string /\
        all_char "/" lead = true /\
        (rest = ""%string \/ startswith "/" rest = true)).
Proof.
  unfold extract_repo_info. cbv zeta.
  destruct (strip_spec "/" path) as (lead & trail & Hp & Hl & Ht & Hh & _).
  destruct (split_first "/" (strip "/" path))
    as (first & rest & Hsp & Hf & Hcase).
  rewrite Hsp.
  destruct Hcase as [[-> Hs] | (t & Hs & ->)].
  - split; [|intros owner repo; discriminate].
    rewrite Hs. tauto.
  - destruct (split_first "/" t) as (second & rest2 & Hsp2 & Hf2 & Hcase2).
    rewrite Hsp2. split.
    + split; [discriminate|]. rewrite Hs. intros Hfree. exfalso.
      clear - Hfree. induction first as [|a first IH]; simpl in Hfree.
      * discriminate.
      * apply andb_true_iff in Hfree. destruct Hfree as [_ Hfree]. auto.
    + intros owner repo [= <- <-]. repeat split; try assumption.
      * intros ->. rewrite Hs in Hh. discriminate.
      * destruct Hcase2 as [[_ ->] | (t2 & -> & _)].
        -- exists lead, trail. rewrite Hp at 1. rewrite Hs.
           split; [now rewrite !append_assoc|]. split; [exact Hl|].
           destruct trail as [|a trail]; [now left|]. right.
           cbn [all_char] in Ht. apply andb_true_iff in Ht.
           destruct Ht as [Ha _]. apply Ascii.eqb_eq in Ha. now subst a.
        -- exists lead, (String "/" t2 ++ trail)%string.
           rewrite Hp at 1. rewrite Hs.
           split; [rewrite !append_assoc; simpl; now rewrite !append_assoc|].
           split; [exact Hl|]. now right.
Qed.

Lemma repo_info_needs_two_segments_witness :
  free_of "/" "octo" = true /\ free_of "/" "" = true /\
  "octo"%string <> ""%string /\
  exists lead rest : string,
    "/octo//pulls"%string = (lead ++ "octo" ++ "/" ++ "" ++ rest)%string /\
    all_char "/" lead = true /\
    (rest = ""%string \/ startswith "/" rest = true).
Proof.
  exact (proj2 (repo_info_needs_two_segments "/octo//pulls")
           "octo"%string ""%string eq_refl).
Defined.

(** X23: for a path made of an owner and a repository name, both
    non-empty and without slash, with any number of slashes before and
    after, [extract_repo_info] returns that owner and that name. *)
Theorem repo_info_of_owner_and_repo (lead owner repo trail : string)
  (Hlead : all_char "/" lead = true) (Htrail : all_char "/" trail = true)
  (Howner : free_of "/" owner = true) (Hrepo : free_of "/" repo = true)
  (Hne_owner : owner <> ""%string) (Hne_repo : repo <> ""%string) :
  extract_repo_info (lead ++ owner ++ "/" ++ repo ++ trail)
  = Returned (owner, repo).
Proof.
  unfold extract_repo_info, strip. cbv zeta.
  rewrite lstrip_all_char by assumption.
  rewrite lstrip_id
    by (apply startswith_app_nonempty;
        [assumption | now apply free_not_headed]).
  replace (owner ++ "/" ++ repo ++ trail)%string
    with ((owner ++ "/" ++ repo) ++ trail)%string
    by (now rewrite !append_assoc).
  rewrite rstrip_all_char by assumption.
  replace (owner ++ "/" ++ repo)%string
    with ((owner ++ "/") ++ repo)%string by (now rewrite !append_assoc).
  rewrite rstrip_app_free by assumption.
  rewrite append_assoc. cbn [append].
  rewrite split_app by assumption. now rewrite split_free.
Qed.

Lemma repo_info_of_owner_and_repo_witness :
  extract_repo_info "/octo/widgets/" = Returned ("octo", "widgets")%string.
Proof.
  apply (repo_info_of_owner_and_repo "/" "octo" "widgets" "/");
    try reflexivity; discriminate.
Defined.

(** X24: [extract_project_info] exits with code 1 exactly when the URL has
    no network location or its path holds nothing but slashes; otherwise
    the project path it returns is the URL path without its leading and
    trailing slashes, and is not empty. *)
Theorem project_info_is_a_stripped_path (parsed : parsed_url) :
  (extract_project_info parsed = Exited 1 <->
   netloc parsed = ""%string \/ all_char "/" (path parsed) = true) /\
  (forall base_url project_path : string,
      extract_project_info parsed = Returned (base_url, project_path) ->
      base_url = (scheme parsed ++ "://" ++ netloc parsed)%string /\
      project_path <> ""%string /\
      startswith "/" project_path = false /\
      rstrip "/" project_path = project_path /\
      exists lead trail : string,
        path parsed = (lead ++ project_path ++ trail)%string /\
        all_char "/" lead = true /\ all_char "/" trail = true).
Proof.
  unfold extract_project_info. cbv zeta.
  destruct (strip_spec "/" (path parsed))
    as (lead & trail & Hp & Hl & Ht & Hh & Hr).
  pose proof (strip_nil_iff "/" (path parsed)) as Hnil.
  destruct (netloc parsed) as [|a n] eqn:Hn.
  - split; [tauto | intros b p; discriminate].
  - destruct (strip "/" (path parsed)) as [|b s] eqn:Hs.
    + split; [|intros b p; discriminate].
      split; [intros _; right; now apply Hnil | reflexivity].
    + split.
      * split; [discriminate|]. intros [Hf | Hall]; [discriminate|].
        apply Hnil in Hall. discriminate.
      * intros base project [= <- <-]. repeat split; try assumption.
        -- discriminate.
        -- now exists lead, trail.
Qed.

Lemma project_info_is_a_stripped_path_witness :
  "group/sub/project"%string <> ""%string /\
  startswith "/" "group/sub/project" = false.
Proof.
  destruct (proj2 (project_info_is_a_stripped_path
                     {| scheme := "https"; netloc := "gitlab.com";
                        path := "/group/sub/project/" |})
              "https://gitlab.com"%string "group/sub/project"%string eq_refl)
    as (_ & Hne & Hh & _).
  split; assumption.
Defined.

(** ** The month window *)

Lemma eves_of_400_years :
  forallb (fun y => forallb (eve_of_month_ok y) months) first_400_years = true.
Proof. vm_compute. reflexivity. Qed.

Lemma is_leap_period (y : Z) : is_leap (y + 400) = is_leap y.
Proof.
  unfold is_leap.
  replace ((y + 400) mod 4) with (y mod 4)
    by (replace (y + 400) with (y + 100 * 4) by lia; now rewrite Z.mod_add).
  replace ((y + 400) mod 100) with (y mod 100)
    by (replace (y + 400) with (y + 4 * 100) by lia; now rewrite Z.mod_add).
  replace ((y + 400) mod 400) with (y mod 400)
    by (replace (y + 400) with (y + 1 * 400) by lia; now rewrite Z.mod_add).
  reflexivity.
Qed.

Lemma ymd2ord_period (y m d : Z) :
  ymd2ord (y + 400) m d = ymd2ord y m d + DI400Y.
Proof.
  unfold ymd2ord, days_before_month, days_before_year, DI400Y.
  rewrite is_leap_period. cbv zeta.
  replace (y + 400 - 1) with (y - 1 + 400) by lia.
  replace ((y - 1 + 400) / 4) with ((y - 1) / 4 + 100)
    by (replace (y - 1 + 400) with (y - 1 + 100 * 4) by lia;
        now rewrite Z.div_add).
  replace ((y - 1 + 400) / 100) with ((y - 1) / 100 + 4)
    by (replace (y - 1 + 400) with (y - 1 + 4 * 100) by lia;
        now rewrite Z.div_add).
  replace ((y - 1 + 400) / 400) with ((y - 1) / 400 + 1)
    by (replace (y - 1 + 400) with (y - 1 + 1 * 400) by lia;
        now rewrite Z.div_add).
  lia.
Qed.

Lemma ord2ymd_period (n : Z) :
  ord2ymd (n + DI400Y) =
  let '(y, m, d) := ord2ymd n in (y + 400, m, d).
Proof.
  unfold ord2ymd. cbv zeta.
  replace (n + DI400Y - 1) with (n - 1 + 1 * DI400Y) by lia.
  rewrite Z.div_add, Z.mod_add by (unfold DI400Y; lia).
  set (r := (n - 1) mod DI400Y).
  destruct ((r mod DI100Y mod DI4Y / 365 =? 4) || (r / DI100Y =? 4)).
  - f_equal. f_equal. lia.
  - match goal with
    | |- (if ?c then _ else _) = _ => destruct c
    end; f_equal; f_equal; lia.
Qed.

Lemma days_in_month_period (y m : Z) :
  days_in_month (y + 400) m = days_in_month y m.
Proof. unfold days_in_month. now rewrite is_leap_period. Qed.

Lemma eve_of_month_period (y m : Z) :
  eve_of_month_ok y m = true -> eve_of_month_ok (y + 400) m = true.
Proof.
  unfold eve_of_month_ok, previous_month.
  destruct (m =? 1).
  - replace (y + 400 - 1) with (y - 1 + 400) by lia.
    rewrite !ymd2ord_period, days_in_month_period.
    replace (ymd2ord y m 1 + DI400Y - 1) with (ymd2ord y m 1 - 1 + DI400Y)
      by lia.
    rewrite !ord2ymd_period.
    destruct (ord2ymd (ymd2ord y m 1 - 1)) as [[y0 m0] d0].
    destruct (ord2ymd (ymd2ord (y - 1) 12 1)) as [[y1 m1] d1].
    rewrite !andb_true_iff, !Z.eqb_eq. lia.
  - rewrite !ymd2ord_period, days_in_month_period.
    replace (ymd2ord y m 1 + DI400Y - 1) with (ymd2ord y m 1 - 1 + DI400Y)
      by lia.
    rewrite !ord2ymd_period.
    destruct (ord2ymd (ymd2ord y m 1 - 1)) as [[y0 m0] d0].
    destruct (ord2ymd (ymd2ord y (m - 1) 1)) as [[y1 m1] d1].
    rewrite !andb_true_iff, !Z.eqb_eq. lia.
Qed.

Lemma in_range_list (n : nat) (x : Z) :
  1 <= x <= Z.of_nat n -> In x (map Z.of_nat (seq 1 n)).
Proof.
  intros Hx. apply in_map_iff. exists (Z.to_nat x).
  split; [lia|]. apply in_seq. lia.
Qed.

Lemma eve_of_month (y m : Z) :
  1 <= y -> 1 <= m <= 12 -> eve_of_month_ok y m = true.
Proof.
  intros Hy Hm.
  assert (Hgen : forall k : nat, forall y0 : Z,
             1 <= y0 <= 400 ->
             eve_of_month_ok (y0 + 400 * Z.of_nat k) m = true).
  { induction k as [|k IH]; intros y0 Hy0.
    - rewrite Z.add_0_r.
      pose proof eves_of_400_years as Hall.
      rewrite forallb_forall in Hall.
      specialize (Hall y0 (in_range_list 400 y0 ltac:(lia))).
      rewrite forallb_forall in Hall.
      apply Hall. apply (in_range_list 12). lia.
    - replace (y0 + 400 * Z.of_nat (S k))
        with (y0 + 400 * Z.of_nat k + 400) by lia.
      apply eve_of_month_period. now apply IH. }
  specialize (Hgen (Z.to_nat ((y - 1) / 400)) ((y - 1) mod 400 + 1)).
  replace ((y - 1) mod 400 + 1 + 400 * Z.of_nat (Z.to_nat ((y - 1) / 400)))
    with y in Hgen.
  - apply Hgen. pose proof (Z.mod_pos_bound (y - 1) 400). lia.
  - rewrite Z2Nat.id by (apply Z.div_pos; lia).
    pose proof (Z.div_mod (y - 1) 400). lia.
Qed.

(** A valid ordinal has a year in [1, 9999] and a month in [1, 12]. *)
Lemma ord2ymd_in_range (n : Z) :
  1 <= n <= MAXORDINAL ->
  1 <= fst (fst (ord2ymd n)) <= 9999 /\ 1 <= snd (fst (ord2ymd n)) <= 12.
Proof.
  intros Hn. unfold ord2ymd, MAXORDINAL, DI400Y, DI100Y, DI4Y in *. cbv zeta.
  set (a := n - 1).
  set (n400 := a / 146097). set (r400 := a mod 146097).
  set (n100 := r400 / 36524). set (r100 := r400 mod 36524).
  set (n4 := r100 / 1461). set (r4 := r100 mod 1461).
  set (n1 := r4 / 365). set (r1 := r4 mod 365).
  assert (Hfacts : 0 <= n400 <= 24 /\ 0 <= n100 <= 4 /\ 0 <= n4 <= 24 /\
                   0 <= n1 <= 4 /\ 0 <= r1 <= 364 /\
                   n400 * 400 + n100 * 100 + n4 * 4 + n1 <= 9999 /\
                   (n1 = 4 \/ n100 = 4 \/
                    n400 * 400 + n100 * 100 + n4 * 4 + n1 <= 9998)).
  { subst n400 r400 n100 r100 n4 r4 n1 r1 a.
    Z.to_euclidean_division_equations. lia. }
  destruct Hfacts as (H400 & H100 & H4 & H1 & Hr1 & Hyear & Hyear').
  destruct ((n1 =? 4) || (n100 =? 4)) eqn:Hlast.
  - cbn [fst snd]. apply orb_true_iff in Hlast.
    rewrite !Z.eqb_eq in Hlast. lia.
  - apply orb_false_iff in Hlast. rewrite !Z.eqb_neq in Hlast.
    set (month := Z.shiftr (r1 + 50) 5).
    assert (Hmonth : 1 <= month <= 12).
    { subst month. rewrite Z.shiftr_div_pow2 by lia.
      change (2 ^ 5) with 32. Z.to_euclidean_division_equations. lia. }
    match goal with
    | |- context [if ?c then _ else _] => destruct c eqn:Hpre
    end; cbn [fst snd]; split; try lia.
    assert (Hcases : month = 1 \/ 1 < month) by lia.
    destruct Hcases as [H1m | H1m]; [|lia].
    exfalso. rewrite H1m in Hpre. simpl in Hpre.
    destruct (Z.gtb_spec 0 r1); [lia | discriminate].
Qed.

Lemma days_before_month_bounds (y m : Z) :
  1 <= m <= 12 ->
  0 <= days_before_month y m <= 335 /\ (1 < m -> 31 <= days_before_month y m).
Proof.
  intros Hm. unfold days_before_month.
  assert (Hcases : m = 1 \/ m = 2 \/ m = 3 \/ m = 4 \/ m = 5 \/ m = 6 \/
                   m = 7 \/ m = 8 \/ m = 9 \/ m = 10 \/ m = 11 \/ m = 12)
    by lia.
  destruct (is_leap y);
    repeat (destruct Hcases as [-> | Hcases]; [simpl; lia|]);
    subst; simpl; lia.
Qed.

Lemma first_of_month_in_range (y m : Z) :
  1 <= y <= 9999 -> 1 <= m <= 12 ->
  1 <= ymd2ord y m 1 <= MAXORDINAL /\
  (1 < y \/ 1 < m -> 1 < ymd2ord y m 1).
Proof.
  intros Hy Hm. destruct (days_before_month_bounds y m Hm) as [Hb Hb1].
  unfold ymd2ord, days_before_year, MAXORDINAL. cbv zeta.
  Z.to_euclidean_division_equations. lia.
Qed.

Lemma eve_of_first_of_month (y m : Z) :
  add_microseconds (mk y m 1 0 0 0 0) (-1) =
  if (0 <? ymd2ord y m 1 - 1) && (ymd2ord y m 1 - 1 <=? MAXORDINAL)
  then Ok {| ordinal := ymd2ord y m 1 - 1;
             hour := 23; minute := 59; second := 59; microsecond := 999999 |}
  else Raise OverflowError.
Proof.
  unfold add_microseconds, mk, time_of_day.
  cbn [ordinal hour minute second microsecond].
  change ((0 * 3600 + 0 * 60 + 0) * 1000000 + 0 + -1) with (-1).
  change (-1 / MICROSECONDS_PER_DAY) with (-1).
  change (-1 mod MICROSECONDS_PER_DAY) with 86399999999.
  cbv zeta.
  replace (ymd2ord y m 1 + -1) with (ymd2ord y m 1 - 1) by lia.
  reflexivity.
Qed.

(** X25: for a date [today] in month [m] of year [y], other than January of
    year 1, [get_previous_month_dates] returns the first day of the month
    before at 00:00 and the last day of that month at 23:59:59.999999, one
    microsecond before the first day of [today]'s month. *)
Theorem previous_month_window (today : datetime) (y m d : Z)
  (Hvalid : valid today)
  (Htoday : ord2ymd (ordinal today) = (y, m, d))
  (Hlater : 1 < y \/ 1 < m) :
  let py := fst (previous_month y m) in
  let pm := snd (previous_month y m) in
  previous_month y m = (if m =? 1 then (y - 1, 12) else (y, m - 1)) /\
  get_previous_month_dates today =
  Ok (mk py pm 1 0 0 0 0,
      mk py pm (days_in_month py pm) 23 59 59 999999) /\
  sub (mk y m 1 0 0 0 0) (mk py pm (days_in_month py pm) 23 59 59 999999) = 1.
Proof.
  intros py pm. split; [reflexivity|].
  destruct Hvalid as (Hord & _).
  pose proof (ord2ymd_in_range (ordinal today) Hord) as [Hy Hm].
  rewrite Htoday in Hy, Hm. cbn [fst snd] in Hy, Hm.
  pose proof (eve_of_month y m ltac:(lia) Hm) as Heve.
  unfold eve_of_month_ok in Heve.
  destruct (previous_month y m) as [py' pm'] eqn:Hprev.
  simpl in py, pm. subst py pm.
  destruct (ord2ymd (ymd2ord y m 1 - 1)) as [[y0 m0] d0] eqn:Hord0.
  destruct (ord2ymd (ymd2ord py' pm' 1)) as [[y1 m1] d1] eqn:Hord1.
  rewrite !andb_true_iff, !Z.eqb_eq in Heve.
  destruct Heve as ((((Hy0 & Hm0) & Hd0) & Hlast) & _). subst y0 m0 d0.
  destruct (first_of_month_in_range y m Hy Hm) as [Hr Hr1].
  specialize (Hr1 Hlater).
  assert (Hend : add_microseconds (mk y m 1 0 0 0 0) (-1) =
                 Ok (mk py' pm' (days_in_month py' pm') 23 59 59 999999)).
  { rewrite eve_of_first_of_month.
    destruct (Z.ltb_spec 0 (ymd2ord y m 1 - 1)); [|lia].
    destruct (Z.leb_spec (ymd2ord y m 1 - 1) MAXORDINAL); [|lia].
    simpl. unfold mk. now rewrite Hlast. }
  split.
  - unfold get_previous_month_dates, first_of_month. rewrite Htoday.
    rewrite Hend. cbn [bind]. unfold mk at 1. cbn [ordinal].
    rewrite Hlast, Hord0. reflexivity.
  - unfold sub, mk. cbn [ordinal hour minute second microsecond].
    rewrite Hlast. lia.
Qed.

Lemma previous_month_window_witness :
  get_previous_month_dates (mk 2024 3 15 10 30 0 0) =
  Ok (mk 2024 2 1 0 0 0 0, mk 2024 2 29 23 59 59 999999).
Proof.
  refine (proj1 (proj2 (previous_month_window (mk 2024 3 15 10 30 0 0)
                          2024 3 15 _ eq_refl _))).
  - apply valid_validb. reflexivity.
  - lia.
Defined.

(** ** [main] of [pr_comment_analyzer.py] *)

Lemma github_count_nonneg (w : result (list GitHub.review_comment)) (c : Z) :
  GitHub.get_review_comment_count w = Ok c -> 0 <= c.
Proof.
  unfold GitHub.get_review_comment_count.
  destruct w as [comments|e]; simpl.
  - intros [= <-]. lia.
  - destruct (is_HTTPError e); [intros [= <-]; lia|].
    destruct (is_RequestException e); [intros [= <-]; lia | discriminate].
Qed.

Lemma results_forall {A : Type} (P : A -> Prop) (l : list (result A))
  (rs : list A) :
  (forall w r, In w l -> w = Ok r -> P r) -> results l = Ok rs -> Forall P rs.
Proof.
  revert rs. induction l as [|w l IH]; intros rs Hall; simpl.
  - intros [= <-]. constructor.
  - destruct w as [r|e]; simpl; [|discriminate].
    destruct (results l) as [rs'|e] eqn:Hr; simpl; [|discriminate].
    intros [= <-]. constructor.
    + apply (Hall (Ok r)); [now left | reflexivity].
    + apply IH; [|reflexivity]. intros w r' Hin. apply Hall. now right.
Qed.

(** X26: [main] of [pr_comment_analyzer.py] never prints "No comments
    found on PRs": once pull requests are listed it reports statistics over
    all of them, with [0 <= min <= max], or fails. *)
Theorem analyzer_never_reports_no_comments {num : Type} `{PyNumber num}
  (round : num -> Z)
  (listing : list (Z * result (list GitHub.review_comment))) :
  Analyzer.main round listing <> Ok Analyzer.no_comments /\
  (forall mean min_count max_count : Z,
      Analyzer.main round listing
      = Ok (Analyzer.statistics mean min_count max_count) ->
      0 <= min_count <= max_count) /\
  (Analyzer.main round listing = Ok Analyzer.no_pull_requests <->
   listing = []).
Proof.
  unfold Analyzer.main.
  destruct listing as [|row rest].
  { split; [discriminate|]. split; [discriminate | tauto]. }
  remember (row :: rest) as listing eqn:Hl.
  destruct (results (map (fun row => GitHub.get_review_comment_count (snd row))
                         listing)) as [cs|e] eqn:Hcs; cbn [bind].
  - pose proof (results_length _ _ Hcs) as Hlen.
    rewrite length_map, Hl in Hlen.
    assert (Hpos : Forall (fun c => 0 <= c) cs).
    { refine (results_forall _ _ _ _ Hcs). intros w r Hin Hw.
      apply in_map_iff in Hin. destruct Hin as (x & Hx & _).
      rewrite Hw in Hx. now apply (github_count_nonneg (snd x)). }
    destruct cs as [|c cs]; [discriminate|].
    split; [discriminate|]. split.
    + intros mean mn mx [= _ <- <-].
      inversion Hpos as [|? ? Hc Hcs']; subst.
      destruct (fold_left_min_spec cs c) as [Hmin _].
      destruct (fold_left_max_spec cs c) as [Hmax _].
      split; [|lia].
      clear - Hc Hcs'. revert c Hc.
      induction Hcs' as [|x cs Hx _ IH]; intros c Hc; simpl; [exact Hc|].
      apply IH. lia.
    + split; [discriminate | intros Hx; rewrite Hx in Hl; discriminate].
  - split; [discriminate|]. split; [discriminate|].
    split; [discriminate | intros Hx; rewrite Hx in Hl; discriminate].
Qed.

